(** * Baseline training orchestrator (experiments/02_baseline_training.py)

    A shallow embedding of the experiment runner that trains the baseline
    models on NSL-KDD and CIC-IDS-2017.  The script is pure orchestration:
    every piece of real work is a call into a collaborator
    ([src.preprocessing], [src.models], scikit-learn's [train_test_split]).
    The embedding therefore keeps the collaborators abstract (a record of
    functions over an arbitrary world state) and makes the script itself
    executable: running a procedure in a world yields its outcome, the
    world it leaves behind and the transcript of everything it did. *)

From stdpp Require Import base strings list gmap.
From Stdlib Require Import ZArith QArith Qround.
Local Close Scope Q_scope.
Local Open Scope Z_scope.

(** ** Python exceptions *)

(** The script has two handlers, [except ImportError] and
    [except Exception].  What matters about an exception is therefore where
    its class sits relative to these two: [ImportError] (or a subclass such as
    [ModuleNotFoundError]), another subclass of [Exception], or a class
    outside [Exception] ([KeyboardInterrupt], [SystemExit], [GeneratorExit]
    derive from [BaseException] directly). *)
Inductive exc_kind :=
  | KImportError
  | KException
  | KBaseException.

Record exn := Exn { exn_kind : exc_kind; exn_text : string }.

(** [isinstance(e, ImportError)] *)
Definition is_ImportError (e : exn) : bool :=
  match exn_kind e with KImportError => true | _ => false end.

(** [isinstance(e, Exception)] *)
Definition is_Exception (e : exn) : bool :=
  match exn_kind e with KBaseException => false | _ => true end.

(** A statement or call either completes with a value or raises. *)
Inductive outcome (A : Type) :=
  | Returned (a : A)
  | Raised (e : exn).
Arguments Returned {A} a.
Arguments Raised {A} e.

Definition outcome_map {A B} (f : A → B) (o : outcome A) : outcome B :=
  match o with Returned a => Returned (f a) | Raised e => Raised e end.

(** ** Paths (pathlib, POSIX flavour) *)

(** An absolute path is the list of its components below the root. *)
Definition path := list string.

(** [p.parents[i]]: the sequence of ancestors has one entry per component,
    nearest first; indexing past its end raises [IndexError]. *)
Definition parents (p : path) (i : nat) : option path :=
  if decide (i < length p)%nat then Some (take (length p - 1 - i)%nat p) else None.

(** [p / name] *)
Definition joinpath (p : path) (name : string) : path := p ++ [name].
Infix "</>" := joinpath (at level 40, left associativity).

(** [str(p)] *)
Definition str (p : path) : string := String.append "/" (String.concat "/" p).

(** [PROJECT_ROOT = Path(__file__).resolve().parents[1]], as a function of
    the resolved location of the script. *)
Definition PROJECT_ROOT (resolved_file : path) : option path :=
  parents resolved_file 1.

(** ** Console output *)

Inductive dataset_id := NSL | CIC.

(** The lines the script prints.  The literal texts carry emoji and are
    kept symbolic; the payload of a line is what the script interpolates. *)
Inductive message {Float : Type} {Row : Type} :=
  | MBlank                              (* print() *)
  | MTitle (d : dataset_id)             (* "... Baseline Training" of a procedure *)
  | MUnderline (title : message)        (* "=" * len(title) *)
  | MImportError (exc : exn)            (* "Import error: {exc}" *)
  | MDataMissing (d : dataset_id)       (* "data not found" / "could not be loaded" *)
  | MLoading                            (* "Loading full CIC-IDS-2017 dataset..." *)
  | MPreprocessing (d : dataset_id)
  | MTraining (d : dataset_id)
  | MValidation (d : dataset_id)
  | MNoResults (d : dataset_id)         (* "No baseline models produced validation results" *)
  | MLeaderboardHeader (d : dataset_id)
  | MLeaderboard (table : list Row)     (* the five columns, rounded to 3 decimals *)
  | MEvaluatingBest (d : dataset_id) (best_model_name : string)
  | MMetric (metric : string) (value : Float)   (* "   {metric.title():<10}: {value:.3f}" *)
  | MPersisting (d : dataset_id)
  | MComplete (d : dataset_id)
  | MError (d : dataset_id) (exc : exn) (* "Error during ... baseline training: {exc}" *)
  | MPipeline                           (* "Baseline Training Pipeline" *)
  | MRule60                             (* "=" * 60 *)
  | MBlankRule60                        (* "\n" + "=" * 60 *)
  | MBoth                               (* completed for both datasets *)
  | MOnly (d : dataset_id)              (* completed for one dataset only *)
  | MAllFailed.                         (* failed for all datasets *)
Arguments message : clear implicits.

(** ** The world outside the script *)

(** Everything the script does not own: the state of the outside world
    (file system, module cache, the collaborators' objects) and the types of
    the values the collaborators hand back.  [len] is Python's [len] on a
    feature matrix (its row count); [nan] is [float("nan")]. *)
Class Domain := {
  World : Type;
  Dataset : Type;
  Features : Type;
  Labels : Type;
  pyfloat : Type;
  Analyzer : Type;        (* instances of NSLKDDAnalyzer *)
  NslPre : Type;          (* instances of NSLKDDPreprocessor *)
  CicPre : Type;          (* instances of CICIDSPreprocessor *)
  Models : Type;          (* instances of BaselineModels *)
  len : Features → Z;
  nan : pyfloat;
}.

Section Orchestrator.
Context `{Domain}.

(** One row of the validation leaderboard (a pandas DataFrame with these
    five columns). *)
Record lb_row := LbRow {
  model_name : string;
  accuracy : pyfloat;
  f1_score : pyfloat;
  precision : pyfloat;
  recall : pyfloat;
}.

Definition Leaderboard := list lb_row.

(** [DataFrame.empty] *)
Definition empty (df : Leaderboard) : bool :=
  match df with [] => true | _ :: _ => false end.

(** A four-way split [(X_a, X_b, y_a, y_b)] and a feature/label pair. *)
Definition split4 : Type := Features * Features * Labels * Labels.
Definition xy : Type := Features * Labels.

(** *** Collaborator interface *)

(** Each entry is one statement of the script that leaves it: given the
    world it returns or raises, and leaves a new world.  Nothing is
    assumed about any of them beyond the shape of what they return (a
    four-tuple to unpack, a frame with the five leaderboard columns, a
    mapping to floats): the script's own handling of a returned value
    (unpacking, [len], [.empty], [.iloc], [.get], formatting) then cannot
    fail.  A collaborator that returns a value of another shape makes that
    handling raise at the same place, inside the same [try] block, which
    the interface renders as the call itself raising. *)
Record Collaborators := {
  do_import_from : string → list string → World → outcome unit * World;
  do_NSLKDDAnalyzer : World → outcome Analyzer * World;
  do_analyzer_load_data : Analyzer → string → World → outcome (option Dataset) * World;
  do_NSLKDDPreprocessor : string → World → outcome NslPre * World;
  do_nsl_fit_transform : NslPre → Dataset → World → outcome split4 * World;
  do_nsl_transform : NslPre → Dataset → World → outcome xy * World;
  do_nsl_save : NslPre → string → World → outcome unit * World;
  do_CICIDSPreprocessor : World → outcome CicPre * World;
  do_cic_load_data : CicPre → bool → World → outcome (option Dataset) * World;
  do_cic_fit_transform : CicPre → Dataset → World → outcome xy * World;
  do_train_test_split : Features → Labels → Q → Z → Labels → World → outcome split4 * World;
  do_BaselineModels : World → outcome Models * World;
  do_train_all : Models → Features → Labels → list string → World → outcome unit * World;
  do_evaluate_all : Models → Features → Labels → World → outcome Leaderboard * World;
  do_evaluate_model : Models → string → Features → Labels → World → outcome (gmap string pyfloat) * World;
  do_save_models : Models → string → string → string → World → outcome unit * World;
}.

(** *** Transcript *)

(** A call as the script writes it, with its arguments. *)
Inductive call :=
  | c_import (module : string) (names : list string)
  | c_NSLKDDAnalyzer
  | c_analyzer_load_data (a : Analyzer) (filename : string)
  | c_NSLKDDPreprocessor (balance_method : string)
  | c_nsl_fit_transform (p : NslPre) (data : Dataset)
  | c_nsl_transform (p : NslPre) (data : Dataset)
  | c_nsl_save (p : NslPre) (file : string)
  | c_CICIDSPreprocessor
  | c_cic_load_data (p : CicPre) (use_full_dataset : bool)
  | c_cic_fit_transform (p : CicPre) (data : Dataset)
  | c_train_test_split (X : Features) (y : Labels) (test_size : Q)
      (random_state : Z) (stratify : Labels)
  | c_BaselineModels
  | c_train_all (b : Models) (X : Features) (y : Labels) (exclude_models : list string)
  | c_evaluate_all (b : Models) (X : Features) (y : Labels)
  | c_evaluate_model (b : Models) (name : string) (X : Features) (y : Labels)
  | c_save_models (b : Models) (models_dir results_dir dataset_suffix : string).

(** What a call handed back. *)
Inductive value :=
  | VNone
  | VAnalyzer (a : Analyzer)
  | VNslPre (p : NslPre)
  | VCicPre (p : CicPre)
  | VModels (b : Models)
  | VDataset (d : option Dataset)
  | VSplit (s : split4)
  | VXy (s : xy)
  | VLeaderboard (df : Leaderboard)
  | VMetrics (m : gmap string pyfloat).

Inductive event :=
  | Printed (m : message pyfloat lb_row)
  | Called (c : call) (r : outcome value)
  | Traceback (exc : exn).          (* traceback.print_exc() *)

(** *** The monad of script fragments *)

Record result (A : Type) := Result {
  res : outcome A;
  final : World;
  log : list event;
}.
Arguments Result {A} res final log.
Arguments res {A} r.
Arguments final {A} r.
Arguments log {A} r.

Definition Py (A : Type) : Type := World → result A.

#[export] Instance py_ret : MRet Py := λ A a w, Result (Returned a) w [].

#[export] Instance py_bind : MBind Py := λ A B f m w,
  match m w with
  | Result (Returned a) w1 t1 =>
      match f a w1 with
      | Result o w2 t2 => Result o w2 (t1 ++ t2)
      end
  | Result (Raised e) w1 t1 => Result (Raised e) w1 t1
  end.

(** [raise e] *)
Definition raise {A} (e : exn) : Py A := λ w, Result (Raised e) w [].

(** [try: body  except <class> as exc: handler exc].  An exception the
    clause does not match propagates. *)
Definition try_except {A} (body : Py A) (catches : exn → bool) (handler : exn → Py A) : Py A :=
  λ w,
    match body w with
    | Result (Returned a) w1 t1 => Result (Returned a) w1 t1
    | Result (Raised e) w1 t1 =>
        if catches e then
          match handler e w1 with
          | Result o w2 t2 => Result o w2 (t1 ++ t2)
          end
        else Result (Raised e) w1 t1
    end.

(** [for x in xs: body x] *)
Fixpoint for_each {A} (xs : list A) (body : A → Py unit) : Py unit :=
  match xs with
  | [] => mret tt
  | x :: xs' => body x;; for_each xs' body
  end.

(** [print(...)]: the line is added to the transcript.  Writing to the
    console is taken to succeed. *)
Definition print (m : message pyfloat lb_row) : Py unit :=
  λ w, Result (Returned tt) w [Printed m].

(** [traceback.print_exc()] inside the handler of [exc] *)
Definition print_exc (exc : exn) : Py unit :=
  λ w, Result (Returned tt) w [Traceback exc].

(** A statement that leaves the script: it is recorded together with what
    came back. *)
Definition invoke {R} (c : call) (inj : R → value) (f : World → outcome R * World) : Py R :=
  λ w, match f w with (o, w') => Result o w' [Called c (outcome_map inj o)] end.

(** *** The script *)

Variable C : Collaborators.

(** The collaborator calls, under the names the script uses. *)
Definition import_from (module : string) (names : list string) : Py unit :=
  invoke (c_import module names) (λ _, VNone) (do_import_from C module names).
Definition NSLKDDAnalyzer : Py Analyzer :=
  invoke c_NSLKDDAnalyzer VAnalyzer (do_NSLKDDAnalyzer C).
Definition analyzer_load_data (a : Analyzer) (filename : string) : Py (option Dataset) :=
  invoke (c_analyzer_load_data a filename) VDataset (do_analyzer_load_data C a filename).
Definition NSLKDDPreprocessor (balance_method : string) : Py NslPre :=
  invoke (c_NSLKDDPreprocessor balance_method) VNslPre (do_NSLKDDPreprocessor C balance_method).
Definition nsl_fit_transform (p : NslPre) (data : Dataset) : Py split4 :=
  invoke (c_nsl_fit_transform p data) VSplit (do_nsl_fit_transform C p data).
Definition nsl_transform (p : NslPre) (data : Dataset) : Py xy :=
  invoke (c_nsl_transform p data) VXy (do_nsl_transform C p data).
Definition nsl_save (p : NslPre) (file : string) : Py unit :=
  invoke (c_nsl_save p file) (λ _, VNone) (do_nsl_save C p file).
Definition CICIDSPreprocessor : Py CicPre :=
  invoke c_CICIDSPreprocessor VCicPre (do_CICIDSPreprocessor C).
Definition cic_load_data (p : CicPre) (use_full_dataset : bool) : Py (option Dataset) :=
  invoke (c_cic_load_data p use_full_dataset) VDataset (do_cic_load_data C p use_full_dataset).
Definition cic_fit_transform (p : CicPre) (data : Dataset) : Py xy :=
  invoke (c_cic_fit_transform p data) VXy (do_cic_fit_transform C p data).
Definition train_test_split (X : Features) (y : Labels) (test_size : Q)
    (random_state : Z) (stratify : Labels) : Py split4 :=
  invoke (c_train_test_split X y test_size random_state stratify) VSplit
    (do_train_test_split C X y test_size random_state stratify).
Definition BaselineModels : Py Models :=
  invoke c_BaselineModels VModels (do_BaselineModels C).
Definition train_all (b : Models) (X : Features) (y : Labels) (exclude_models : list string) : Py unit :=
  invoke (c_train_all b X y exclude_models) (λ _, VNone) (do_train_all C b X y exclude_models).
Definition evaluate_all (b : Models) (X : Features) (y : Labels) : Py Leaderboard :=
  invoke (c_evaluate_all b X y) VLeaderboard (do_evaluate_all C b X y).
Definition evaluate_model (b : Models) (name : string) (X : Features) (y : Labels)
    : Py (gmap string pyfloat) :=
  invoke (c_evaluate_model b name X y) VMetrics (do_evaluate_model C b name X y).
Definition save_models (b : Models) (models_dir results_dir dataset_suffix : string) : Py unit :=
  invoke (c_save_models b models_dir results_dir dataset_suffix) (λ _, VNone)
    (do_save_models C b models_dir results_dir dataset_suffix).

(** [df.iloc[0]["model_name"]]; positional indexing into an empty frame
    raises [IndexError]. *)
Definition iloc0_model_name (df : Leaderboard) : Py string :=
  match df with
  | row :: _ => mret (model_name row)
  | [] => raise (Exn KException "single positional indexer is out-of-bounds")
  end.

(** Lines 17-20. *)
Definition _print_separator (title : message pyfloat lb_row) : Py unit :=
  print MBlank;;
  print title;;
  print (MUnderline title).

(** The metric names of the reporting loop (lines 66 and 141). *)
Definition reported_metrics : list string :=
  ["accuracy"; "f1_score"; "precision"; "recall"].

(** Lines 66-68 and 141-143. *)
Definition report_metrics (test_metrics : gmap string pyfloat) : Py unit :=
  for_each reported_metrics (λ metric,
    let value := default nan (test_metrics !! metric) in
    print (MMetric metric value)).

(** The module-level constant of line 12. *)
Variable project_root : path.

(** Lines 23-81.  A [return] inside the first [try] leaves the function:
    the block yields [Some b] for [return b] and [None] when control falls
    through to the statements after it. *)
Definition train_nsl_kdd_baseline : Py bool :=
  _print_separator (MTitle NSL);;
  returned ← try_except
    (import_from "src.preprocessing" ["NSLKDDAnalyzer"; "NSLKDDPreprocessor"];;
     import_from "src.models" ["BaselineModels"];;
     mret None)
    is_ImportError
    (λ exc, print (MImportError exc);; mret (Some false));
  match returned with
  | Some b => mret b
  | None =>
    try_except
      (analyzer ← NSLKDDAnalyzer;
       train_data ← analyzer_load_data analyzer "KDDTrain+.txt";
       test_data ← analyzer_load_data analyzer "KDDTest+.txt";
       match train_data, test_data with
       | Some train_data, Some test_data =>
         print (MPreprocessing NSL);;
         preprocessor ← NSLKDDPreprocessor "undersample";
         '(X_train, X_val, y_train, y_val) ← nsl_fit_transform preprocessor train_data;
         '(X_test, y_test) ← nsl_transform preprocessor test_data;
         print (MTraining NSL);;
         baseline ← BaselineModels;
         let exclude_models :=
           if bool_decide (5000 < len X_train) then ["svm_linear"] else [] in
         train_all baseline X_train y_train exclude_models;;
         print (MValidation NSL);;
         val_results ← evaluate_all baseline X_val y_val;
         if empty val_results then
           print (MNoResults NSL);;
           mret false
         else
           print (MLeaderboardHeader NSL);;
           print (MLeaderboard val_results);;
           best_model_name ← iloc0_model_name val_results;
           print (MEvaluatingBest NSL best_model_name);;
           test_metrics ← evaluate_model baseline best_model_name X_test y_test;
           report_metrics test_metrics;;
           print (MPersisting NSL);;
           let models_dir := project_root </> "data" </> "models" </> "baseline" in
           let results_dir := project_root </> "data" </> "results" </> "nsl" in
           save_models baseline (str models_dir) (str results_dir) "_nsl";;
           nsl_save preprocessor (str (models_dir </> "nsl_preprocessor.pkl"));;
           print (MComplete NSL);;
           mret true
       | _, _ =>
         print (MDataMissing NSL);;
         mret false
       end)
      is_Exception
      (λ exc,
         print (MError NSL exc);;
         print_exc exc;;
         mret false)
  end.

(** Lines 84-155. *)
Definition train_cic_baseline : Py bool :=
  _print_separator (MTitle CIC);;
  returned ← try_except
    (import_from "src.preprocessing" ["CICIDSPreprocessor"];;
     import_from "src.models" ["BaselineModels"];;
     mret None)
    is_ImportError
    (λ exc, print (MImportError exc);; mret (Some false));
  match returned with
  | Some b => mret b
  | None =>
    preprocessor ← CICIDSPreprocessor;
    try_except
      (print MLoading;;
       cic_data ← cic_load_data preprocessor true;
       match cic_data with
       | None =>
         print (MDataMissing CIC);;
         mret false
       | Some cic_data =>
         print (MPreprocessing CIC);;
         '(X_full, y_full) ← cic_fit_transform preprocessor cic_data;
         '(X_train, X_temp, y_train, y_temp) ←
           train_test_split X_full y_full 0.4%Q 42 y_full;
         '(X_val, X_test, y_val, y_test) ←
           train_test_split X_temp y_temp 0.5%Q 42 y_temp;
         print (MTraining CIC);;
         baseline ← BaselineModels;
         let exclude_models :=
           if bool_decide (10000 < len X_train) then ["svm_linear"; "knn"] else [] in
         train_all baseline X_train y_train exclude_models;;
         print (MValidation CIC);;
         val_results ← evaluate_all baseline X_val y_val;
         if empty val_results then
           print (MNoResults CIC);;
           mret false
         else
           print (MLeaderboardHeader CIC);;
           print (MLeaderboard val_results);;
           best_model_name ← iloc0_model_name val_results;
           print (MEvaluatingBest CIC best_model_name);;
           test_metrics ← evaluate_model baseline best_model_name X_test y_test;
           report_metrics test_metrics;;
           print (MPersisting CIC);;
           let cic_models_dir := project_root </> "data" </> "models" </> "cic_baseline" in
           let results_dir := project_root </> "data" </> "results" </> "cic" in
           save_models baseline (str cic_models_dir) (str results_dir) "_cic";;
           print (MComplete CIC);;
           mret true
       end)
      is_Exception
      (λ exc,
         print (MError CIC exc);;
         print_exc exc;;
         mret false)
  end.

(** Lines 158-175. *)
Definition main : Py bool :=
  print MPipeline;;
  print MRule60;;
  success_nsl ← train_nsl_kdd_baseline;
  success_cic ← train_cic_baseline;
  print MBlankRule60;;
  (if success_nsl && success_cic then print MBoth
   else if success_nsl then print (MOnly NSL)
   else if success_cic then print (MOnly CIC)
   else print MAllFailed);;
  mret (success_nsl && success_cic).

(** Line 179: the status handed to [sys.exit]. *)
Definition exit_status (main_result : bool) : Z :=
  if main_result then 0 else 1.

Definition script_entry : Py Z :=
  ok ← main;
  mret (exit_status ok).

End Orchestrator.

Arguments Result {_ _} res final log.
Arguments res {_ _} r.
Arguments final {_ _} r.
Arguments log {_ _} r.

(** Lines 12 and 178-179: the script run as a program.  [PROJECT_ROOT] is
    computed when the module is loaded; the [IndexError] of a script that
    lies directly under the root is raised before [main] starts.  (The
    additions to [sys.path] of lines 13-14 only affect what the imports
    find, which is the collaborators' business.) *)
Definition run_script `{Domain} (C : Collaborators) (resolved_file : path) : Py Z :=
  match PROJECT_ROOT resolved_file with
  | Some root => script_entry C root
  | None => raise (Exn KException "IndexError")
  end.

(** ** Reading a transcript *)

Section Transcripts.
Context `{Domain}.

(** Which function a call is a call of. *)
Definition callee (c : call) : nat :=
  match c with
  | c_import _ _ => 0
  | c_NSLKDDAnalyzer => 1
  | c_analyzer_load_data _ _ => 2
  | c_NSLKDDPreprocessor _ => 3
  | c_nsl_fit_transform _ _ => 4
  | c_nsl_transform _ _ => 5
  | c_nsl_save _ _ => 6
  | c_CICIDSPreprocessor => 7
  | c_cic_load_data _ _ => 8
  | c_cic_fit_transform _ _ => 9
  | c_train_test_split _ _ _ _ _ => 10
  | c_BaselineModels => 11
  | c_train_all _ _ _ _ => 12
  | c_evaluate_all _ _ _ => 13
  | c_evaluate_model _ _ _ _ => 14
  | c_save_models _ _ _ _ => 15
  end%nat.

(** Events of the same sort: both prints, both tracebacks, or calls of
    the same function. *)
Definition same_sort (ev ev' : event) : bool :=
  match ev, ev' with
  | Printed _, Printed _ => true
  | Traceback _, Traceback _ => true
  | Called c _, Called c' _ => Nat.eqb (callee c) (callee c')
  | _, _ => false
  end.

(** Some call satisfying [P] was made. *)
Definition called (P : call → Prop) (t : list event) : Prop :=
  ∃ c r, Called c r ∈ t ∧ P c.

Definition is_train_all (c : call) : Prop :=
  match c with c_train_all _ _ _ _ => True | _ => False end.

Definition is_evaluate_model (c : call) : Prop :=
  match c with c_evaluate_model _ _ _ _ => True | _ => False end.

Definition is_save_models (c : call) : Prop :=
  match c with c_save_models _ _ _ _ => True | _ => False end.

(** The calls that write artefacts. *)
Definition is_persistence (c : call) : Prop :=
  match c with c_save_models _ _ _ _ | c_nsl_save _ _ => True | _ => False end.

(** The calls a procedure makes inside its main [try] block (lines 35-77
    and 98-151): every call except the imports, which have a [try] of
    their own, and the [CICIDSPreprocessor()] of line 96, which stands
    between the two blocks. *)
Definition in_main_try (c : call) : Prop :=
  match c with
  | c_import _ _ | c_CICIDSPreprocessor => False
  | _ => True
  end.

(** Whether a handler of the script stands between a call and the caller
    of the procedure when the call raises [e]: the imports sit under
    [except ImportError], the calls of the main [try] block under
    [except Exception], and the [CICIDSPreprocessor()] of line 96 under
    no handler at all. *)
Definition guarded (c : call) (e : exn) : bool :=
  match c with
  | c_import _ _ => is_ImportError e
  | c_CICIDSPreprocessor => false
  | _ => is_Exception e
  end.

(** Every exception raised during the run met a handler. *)
Definition contained (t : list event) : Prop :=
  ∀ c e, Called c (Raised e) ∈ t → guarded c e = true.

(** Lines 166-173: the combined status line. *)
Definition status_line (success_nsl success_cic : bool) : message pyfloat lb_row :=
  if success_nsl && success_cic then MBoth
  else if success_nsl then MOnly NSL
  else if success_cic then MOnly CIC
  else MAllFailed.

Definition is_split (ev : event) : bool :=
  match ev with
  | Called (c_train_test_split _ _ _ _ _) _ => true
  | _ => false
  end.

(** scikit-learn's size rule for a fractional [test_size] (with
    [train_size] left unset): the second part of the split has
    [ceil(test_size * n)] rows and the first part the remaining ones. *)
Definition honours_size_rule (ev : event) : Prop :=
  match ev with
  | Called (c_train_test_split X _ test_size _ _) (Returned (VSplit (X_a, X_b, _, _))) =>
      len X_b = Qceiling (test_size * inject_Z (len X)) ∧ len X_a = len X - len X_b
  | _ => True
  end.

(** The path arguments of the calls that write artefacts. *)
Definition written_paths (t : list event) : list string :=
  flat_map (λ ev,
    match ev with
    | Called (c_save_models _ models_dir results_dir _) _ => [models_dir; results_dir]
    | Called (c_nsl_save _ file) _ => [file]
    | _ => []
    end) t.

End Transcripts.

(** Where the two procedures write, relative to [PROJECT_ROOT]. *)
Definition nsl_targets : list path :=
  [ ["data"; "models"; "baseline"];
    ["data"; "results"; "nsl"];
    ["data"; "models"; "baseline"; "nsl_preprocessor.pkl"] ].

Definition cic_targets : list path :=
  [ ["data"; "models"; "cic_baseline"];
    ["data"; "results"; "cic"] ].

(** ** Symbolic execution of a run *)

(** [wp m w Q]: running [m] in world [w] gives a result satisfying [Q].
    The rules further down take one statement of [m] at a time and leave the
    rest of the script untouched, so a proof follows the script line by line
    and meets each collaborator call once, with an arbitrary answer. *)
Definition wp `{Domain} {A} (m : Py A) (w : World) (Q : result A → Prop) : Prop :=
  Q (m w).

(** Prefix the transcript of a result. *)
Definition after `{Domain} {A} (t : list event) (r : result A) : result A :=
  Result (res r) (final r) (t ++ log r).

(** ** A concrete world to run the script in *)

(** Data sets, feature matrices and label vectors are represented by their
    row counts, metric values by an optional rational ([None] is NaN), and
    the world counts the calls made so far.  A [scenario] fixes what the
    collaborators answer. *)
Module Toy.

#[export] Instance domain : Domain := {|
  World := nat;
  Dataset := Z;
  Features := Z;
  Labels := Z;
  pyfloat := option Q;
  Analyzer := unit;
  NslPre := unit;
  CicPre := unit;
  Models := unit;
  len := λ X, X;
  nan := None;
|}.

Record scenario := Scenario {
  sc_import : outcome unit;
  sc_nsl_train : outcome (option Z);
  sc_nsl_test : outcome (option Z);
  sc_cic_ctor : outcome unit;
  sc_cic_data : outcome (option Z);
  sc_train_all : outcome unit;
  sc_leaderboard : list lb_row;
  sc_metrics : gmap string (option Q);
}.

Definition answer {A} (o : outcome A) : nat → outcome A * nat := λ w, (o, S w).

(** The size rule of [honours_size_rule]. *)
Definition split_rows (n : Z) (test_size : Q) : Z * Z :=
  let n_test := Qceiling (test_size * inject_Z n) in (n - n_test, n_test).

Definition collaborators (sc : scenario) : Collaborators := {|
  do_import_from := λ _ _, answer (sc_import sc);
  do_NSLKDDAnalyzer := answer (Returned tt);
  do_analyzer_load_data := λ _ filename,
    answer (if String.eqb filename "KDDTrain+.txt" then sc_nsl_train sc else sc_nsl_test sc);
  do_NSLKDDPreprocessor := λ _, answer (Returned tt);
  do_nsl_fit_transform := λ _ data,
    let '(n_train, n_val) := split_rows data 0.2%Q in
    answer (Returned (n_train, n_val, n_train, n_val));
  do_nsl_transform := λ _ data, answer (Returned (data, data));
  do_nsl_save := λ _ _, answer (Returned tt);
  do_CICIDSPreprocessor := answer (sc_cic_ctor sc);
  do_cic_load_data := λ _ _, answer (sc_cic_data sc);
  do_cic_fit_transform := λ _ data, answer (Returned (data, data));
  do_train_test_split := λ X y test_size _ _,
    let '(n_train, n_test) := split_rows X test_size in
    answer (Returned (n_train, n_test, n_train, n_test));
  do_BaselineModels := answer (Returned tt);
  do_train_all := λ _ _ _ _, answer (sc_train_all sc);
  do_evaluate_all := λ _ _ _, answer (Returned (sc_leaderboard sc));
  do_evaluate_model := λ _ _ _ _, answer (Returned (sc_metrics sc));
  do_save_models := λ _ _ _ _, answer (Returned tt);
|}.

Definition row (name : string) (score : Q) : lb_row :=
  LbRow name (Some score) (Some score) (Some score) (Some score).

(** A leaderboard that is deliberately not sorted, and a metric record
    with a single key. *)
Definition unsorted : list lb_row := [row "knn" 0.7%Q; row "random_forest" 0.9%Q].
Definition only_accuracy : gmap string (option Q) := {[ "accuracy" := Some 0.8%Q ]}.

(** Everything works. *)
Definition happy : scenario :=
  Scenario (Returned tt) (Returned (Some 100)) (Returned (Some 40)) (Returned tt)
           (Returned (Some 50)) (Returned tt) unsorted only_accuracy.

(** Training sets beyond both size thresholds. *)
Definition large : scenario :=
  Scenario (Returned tt) (Returned (Some 10000)) (Returned (Some 40)) (Returned tt)
           (Returned (Some 20000)) (Returned tt) unsorted only_accuracy.

(** The loaders find no training data. *)
Definition no_train_data : scenario :=
  Scenario (Returned tt) (Returned None) (Returned (Some 40)) (Returned tt)
           (Returned None) (Returned tt) unsorted only_accuracy.

(** No model produces a validation result. *)
Definition no_models : scenario :=
  Scenario (Returned tt) (Returned (Some 100)) (Returned (Some 40)) (Returned tt)
           (Returned (Some 50)) (Returned tt) [] only_accuracy.

(** Training fails with a [ValueError]. *)
Definition value_error : exn := Exn KException "ValueError".
Definition failing : scenario :=
  Scenario (Returned tt) (Returned (Some 100)) (Returned (Some 40)) (Returned tt)
           (Returned (Some 50)) (Raised value_error) unsorted only_accuracy.

(** The user interrupts training (Ctrl-C). *)
Definition keyboard_interrupt : exn := Exn KBaseException "KeyboardInterrupt".
Definition interrupted : scenario :=
  Scenario (Returned tt) (Returned (Some 100)) (Returned (Some 40)) (Returned tt)
           (Returned (Some 50)) (Raised keyboard_interrupt) unsorted only_accuracy.

(** The NSL-KDD loader gives up with [sys.exit(1)]. *)
Definition system_exit : exn := Exn KBaseException "SystemExit: 1".
Definition exiting : scenario :=
  Scenario (Returned tt) (Raised system_exit) (Returned (Some 40)) (Returned tt)
           (Returned (Some 50)) (Returned tt) unsorted only_accuracy.

(** The CIC preprocessor cannot be constructed. *)
Definition runtime_error : exn := Exn KException "RuntimeError".
Definition broken_constructor : scenario :=
  Scenario (Returned tt) (Returned (Some 100)) (Returned (Some 40)) (Raised runtime_error)
           (Returned (Some 50)) (Returned tt) unsorted only_accuracy.

Definition root : path := ["repo"; "src"].

End Toy.

(** ** Further readings of a transcript *)

Section MoreTranscripts.
Context `{Domain}.

(** The functions and methods the script calls. *)
Inductive function_name :=
  | F_import
  | F_NSLKDDAnalyzer
  | F_analyzer_load_data
  | F_NSLKDDPreprocessor
  | F_nsl_fit_transform
  | F_nsl_transform
  | F_nsl_save
  | F_CICIDSPreprocessor
  | F_cic_load_data
  | F_cic_fit_transform
  | F_train_test_split
  | F_BaselineModels
  | F_train_all
  | F_evaluate_all
  | F_evaluate_model
  | F_save_models.

Definition function_of (c : call) : function_name :=
  match c with
  | c_import _ _ => F_import
  | c_NSLKDDAnalyzer => F_NSLKDDAnalyzer
  | c_analyzer_load_data _ _ => F_analyzer_load_data
  | c_NSLKDDPreprocessor _ => F_NSLKDDPreprocessor
  | c_nsl_fit_transform _ _ => F_nsl_fit_transform
  | c_nsl_transform _ _ => F_nsl_transform
  | c_nsl_save _ _ => F_nsl_save
  | c_CICIDSPreprocessor => F_CICIDSPreprocessor
  | c_cic_load_data _ _ => F_cic_load_data
  | c_cic_fit_transform _ _ => F_cic_fit_transform
  | c_train_test_split _ _ _ _ _ => F_train_test_split
  | c_BaselineModels => F_BaselineModels
  | c_train_all _ _ _ _ => F_train_all
  | c_evaluate_all _ _ _ => F_evaluate_all
  | c_evaluate_model _ _ _ _ => F_evaluate_model
  | c_save_models _ _ _ _ => F_save_models
  end.

(** The functions called during a run, in the order of the calls. *)
Fixpoint called_functions (t : list event) : list function_name :=
  match t with
  | [] => []
  | Called c _ :: t' => function_of c :: called_functions t'
  | _ :: t' => called_functions t'
  end.

Definition is_call (ev : event) : bool :=
  match ev with Called _ _ => true | _ => false end.

(** No call follows a call that raised. *)
Fixpoint stops_at_first_raise (t : list event) : bool :=
  match t with
  | [] => true
  | Called _ (Raised _) :: t' => forallb (λ ev, negb (is_call ev)) t'
  | _ :: t' => stops_at_first_raise t'
  end.

(** The calls that raised, with what they raised. *)
Fixpoint raised_calls (t : list event) : list (call * exn) :=
  match t with
  | [] => []
  | Called c (Raised e) :: t' => (c, e) :: raised_calls t'
  | _ :: t' => raised_calls t'
  end.

(** The lines with which a procedure explains a [False]: lines 32/93,
    41/102, 57/132 and 79/153. *)
Definition is_failure_message (ev : event) : bool :=
  match ev with
  | Printed (MImportError _) | Printed (MDataMissing _)
  | Printed (MNoResults _) | Printed (MError _ _) => true
  | _ => false
  end.

Definition is_traceback (ev : event) : bool :=
  match ev with Traceback _ => true | _ => false end.

End MoreTranscripts.

(** The calls of a complete run of each procedure, in source order. *)
Definition nsl_pipeline : list function_name :=
  [ F_import; F_import; F_NSLKDDAnalyzer; F_analyzer_load_data; F_analyzer_load_data;
    F_NSLKDDPreprocessor; F_nsl_fit_transform; F_nsl_transform; F_BaselineModels;
    F_train_all; F_evaluate_all; F_evaluate_model; F_save_models; F_nsl_save ].

Definition cic_pipeline : list function_name :=
  [ F_import; F_import; F_CICIDSPreprocessor; F_cic_load_data; F_cic_fit_transform;
    F_train_test_split; F_train_test_split; F_BaselineModels;
    F_train_all; F_evaluate_all; F_evaluate_model; F_save_models ].

(** Further scenarios. *)
Module Toy2.
Import Toy.

(** [src.models] is not installed. *)
Definition module_not_found : exn := Exn KImportError "ModuleNotFoundError".
Definition not_installed : scenario :=
  Scenario (Raised module_not_found) (Returned (Some 100)) (Returned (Some 40)) (Returned tt)
           (Returned (Some 50)) (Returned tt) unsorted only_accuracy.

(** A collaborator module fails while it is being imported. *)
Definition name_error : exn := Exn KException "NameError".
Definition broken_module : scenario :=
  Scenario (Raised name_error) (Returned (Some 100)) (Returned (Some 40)) (Returned tt)
           (Returned (Some 50)) (Returned tt) unsorted only_accuracy.

End Toy2.

(** ** Rules of symbolic execution *)

Section Rules.
Context `{Domain}.

Lemma wp_run {A} (m : Py A) w (Q : result A → Prop) : wp m w Q → Q (m w).
Proof. exact id. Qed.

Lemma wp_ret {A} (a : A) w (Q : result A → Prop) :
  Q (Result (Returned a) w []) → wp (mret a) w Q.
Proof. exact id. Qed.

Lemma wp_raise {A} e w (Q : result A → Prop) :
  Q (Result (Raised e) w []) → wp (raise e) w Q.
Proof. exact id. Qed.

Lemma wp_print m w (Q : result unit → Prop) :
  Q (Result (Returned tt) w [Printed m]) → wp (print m) w Q.
Proof. exact id. Qed.

Lemma wp_print_exc e w (Q : result unit → Prop) :
  Q (Result (Returned tt) w [Traceback e]) → wp (print_exc e) w Q.
Proof. exact id. Qed.

Lemma wp_invoke {R} c (inj : R → value) f w (Q : result R → Prop) :
  (∀ a w', f w = (Returned a, w') → Q (Result (Returned a) w' [Called c (Returned (inj a))])) →
  (∀ e w', f w = (Raised e, w') → Q (Result (Raised e) w' [Called c (Raised e)])) →
  wp (invoke c inj f) w Q.
Proof.
  intros Hret Hraise. unfold wp, invoke.
  destruct (f w) as [[a|e] w'] eqn:Hf; [by apply Hret | by apply Hraise].
Qed.

Lemma wp_bind {A B} (m : Py A) (f : A → Py B) w (Q : result B → Prop) :
  wp m w (λ r,
    match res r with
    | Returned a => wp (f a) (final r) (λ r', Q (after (log r) r'))
    | Raised e => Q (Result (Raised e) (final r) (log r))
    end) →
  wp (m ≫= f) w Q.
Proof.
  unfold wp, mbind, py_bind, after.
  destruct (m w) as [[a|e] w1 t1]; cbn; [|done].
  by destruct (f a w1).
Qed.

Lemma wp_try_except {A} (body : Py A) (catches : exn → bool) handler w
    (Q : result A → Prop) :
  wp body w (λ r,
    match res r with
    | Returned a => Q (Result (Returned a) (final r) (log r))
    | Raised e =>
        (catches e = true → wp (handler e) (final r) (λ r', Q (after (log r) r'))) ∧
        (catches e = false → Q (Result (Raised e) (final r) (log r)))
    end) →
  wp (try_except body catches handler) w Q.
Proof.
  unfold wp, try_except, after.
  destruct (body w) as [[a|e] w1 t1]; cbn; [done|].
  intros [Hcaught Hpassed]. destruct (catches e); [|by apply Hpassed].
  specialize (Hcaught eq_refl). by destruct (handler e w1).
Qed.

End Rules.

(** The script's own definitions, unfolded when execution reaches them. *)
Create HintDb script discriminated.
#[export] Hint Unfold train_nsl_kdd_baseline train_cic_baseline main script_entry
  _print_separator report_metrics reported_metrics iloc0_model_name
  import_from NSLKDDAnalyzer analyzer_load_data NSLKDDPreprocessor
  nsl_fit_transform nsl_transform nsl_save CICIDSPreprocessor cic_load_data
  cic_fit_transform train_test_split BaselineModels train_all evaluate_all
  evaluate_model save_models : script.

Ltac wp_simpl :=
  cbv beta iota zeta delta [res final log after app outcome_map for_each
                            report_metrics reported_metrics].

(** One step of execution: dispatch on the statement under [wp]; outside
    [wp] the run is waiting for a handler to accept or pass an exception. *)
Ltac wp_step :=
  lazymatch goal with
  | |- wp ?m _ _ =>
      lazymatch m with
      | mbind _ _ => apply wp_bind
      | try_except _ _ _ => apply wp_try_except
      | invoke _ _ _ => apply wp_invoke; intros ? ? ?; wp_simpl
      | print _ => apply wp_print; wp_simpl
      | print_exc _ => apply wp_print_exc; wp_simpl
      | mret _ => apply wp_ret; wp_simpl
      | raise _ => apply wp_raise; wp_simpl
      | match ?x with (_, _) => _ end => is_var x; destruct x; wp_simpl
      | match ?x with Some _ => _ | None => _ end => is_var x; destruct x; wp_simpl
      | match ?x with [] => _ | _ :: _ => _ end => is_var x; destruct x; wp_simpl
      | if empty ?df then _ else _ => is_var df; destruct df; cbv [empty]; wp_simpl
      | _ => progress (autounfold with script; wp_simpl)
      end
  | |- (_ = true → wp _ _ _) ∧ (_ = false → _) => split; intros ?; wp_simpl
  end.

(** Execute the run [m w] wherever the goal mentions it. *)
Ltac symex m w :=
  pattern (m w); apply wp_run; repeat wp_step.

(** ** Finding events in an explicit transcript *)

Section TranscriptLemmas.
Context `{Domain}.

Lemma same_sort_refl ev : same_sort ev ev = true.
Proof. destruct ev as [?|c ?|?]; cbn; [done| |done]. apply Nat.eqb_refl. Qed.

(** To find an event in a transcript, look among the events of its sort. *)
Lemma elem_of_same_sort ev t : ev ∈ t → ev ∈ List.filter (same_sort ev) t.
Proof.
  intros Hin. apply list_elem_of_In, filter_In. split.
  - by apply list_elem_of_In.
  - apply same_sort_refl.
Qed.

Lemma contained_app t1 t2 : contained (t1 ++ t2) → contained t1 ∧ contained t2.
Proof. intros Hc. split; intros c e Hin; apply Hc, elem_of_app; auto. Qed.

End TranscriptLemmas.

(** [H : ev ∈ t] for an explicit [t]: one case per event of the sort of
    [ev], the impossible ones discarded. *)
Ltac in_log H :=
  apply elem_of_same_sort in H;
  cbv beta iota delta [List.filter same_sort callee Nat.eqb] in H;
  repeat (apply elem_of_cons in H as [H|H]; [try discriminate H|]);
  try (apply elem_of_nil in H; destruct H).

(** The same without the filter, for an event whose sort is not known. *)
Ltac in_log_any H :=
  repeat (apply elem_of_cons in H as [H|H]; [try discriminate H|]);
  try (apply elem_of_nil in H; destruct H).

(** [ev ∈ t] for an explicit [t] that has it. *)
Ltac log_has :=
  (apply list_elem_of_here) + (apply list_elem_of_further; log_has).

(** [¬ called P t] for an explicit [t]. *)
Ltac not_called :=
  let c := fresh "c" in
  let Hin := fresh "Hin" in
  let Hc := fresh "Hc" in
  intros (c & ? & Hin & Hc); destruct c; try (exact Hc); in_log Hin.

(** ** Arithmetic of the 60/20/20 split *)

Lemma ceiling_of_0_4 n : Qceiling (0.4 * inject_Z n) = - (- (4 * n) / 10).
Proof. reflexivity. Qed.

Lemma ceiling_of_0_5 n : Qceiling (0.5 * inject_Z n) = - (- (5 * n) / 10).
Proof. reflexivity. Qed.

(** Splitting off [ceil(0.4 n)] rows and halving them (rounding the test
    half up) leaves every part within one row of 60%, 20% and 20%. *)
Lemma split_60_20_20 n n_train n_temp n_val n_test :
  n_temp = Qceiling (0.4 * inject_Z n) → n_train = n - n_temp →
  n_test = Qceiling (0.5 * inject_Z n_temp) → n_val = n_temp - n_test →
  n_train + n_val + n_test = n ∧
  Z.abs (5 * n_train - 3 * n) < 5 ∧
  Z.abs (5 * n_val - n) < 5 ∧
  Z.abs (5 * n_test - n) < 5.
Proof.
  rewrite ceiling_of_0_4, ceiling_of_0_5. intros -> -> -> ->.
  Z.to_euclidean_division_equations. lia.
Qed.

Lemma joinpath_app (p : path) (name : string) : p </> name = p ++ [name].
Proof. reflexivity. Qed.

(** [parents[1]] drops the last two components. *)
Lemma PROJECT_ROOT_two_up (top : path) (dir file : string) :
  PROJECT_ROOT (top ++ [dir; file]) = Some top.
Proof.
  unfold PROJECT_ROOT, parents. rewrite length_app. cbn [length].
  case_decide; [|lia]. f_equal.
  replace (length top + 2 - 1 - 1)%nat with (length top) by lia.
  by rewrite take_app_length.
Qed.

(** ** The driver in terms of the two procedures *)

Section Driver.
Context `{Domain} (C : Collaborators) (root : path).

Lemma main_runs w :
  let nsl := train_nsl_kdd_baseline C root w in
  let cic := train_cic_baseline C root (final nsl) in
  main C root w =
    match res nsl with
    | Raised e =>
        Result (Raised e) (final nsl) ([Printed MPipeline; Printed MRule60] ++ log nsl)
    | Returned success_nsl =>
        match res cic with
        | Raised e =>
            Result (Raised e) (final cic)
              ([Printed MPipeline; Printed MRule60] ++ log nsl ++ log cic)
        | Returned success_cic =>
            Result (Returned (success_nsl && success_cic)) (final cic)
              ([Printed MPipeline; Printed MRule60] ++ log nsl ++ log cic ++
               [Printed MBlankRule60; Printed (status_line success_nsl success_cic)])
        end
    end.
Proof.
  cbv zeta. unfold main, mbind, py_bind, print, mret, py_ret, status_line.
  destruct (train_nsl_kdd_baseline C root w) as [[b1|e1] w1 t1]; cbn; [|done].
  destruct (train_cic_baseline C root w1) as [[b2|e2] w2 t2]; cbn; [|done].
  by destruct b1, b2; cbn; rewrite ?app_nil_r.
Qed.


(** Containment for one procedure at a time. *)
Lemma nsl_contained w :
  let nsl := train_nsl_kdd_baseline C root w in
  contained (log nsl) → ∃ b, res nsl = Returned b.
Proof.
  cbv zeta. symex (train_nsl_kdd_baseline C root) w.
  all: intros Hcontained.
  all: lazymatch goal with
       | |- ∃ b, Returned _ = Returned b => by eexists
       | |- ∃ b, Raised ?e = Returned b =>
           exfalso;
           epose proof (Hcontained _ e ltac:(log_has)) as Hguard;
           cbn [guarded] in Hguard; congruence
       end.
Qed.

Lemma cic_contained w :
  let cic := train_cic_baseline C root w in
  contained (log cic) → ∃ b, res cic = Returned b.
Proof.
  cbv zeta. symex (train_cic_baseline C root) w.
  all: intros Hcontained.
  all: lazymatch goal with
       | |- ∃ b, Returned _ = Returned b => by eexists
       | |- ∃ b, Raised ?e = Returned b =>
           exfalso;
           epose proof (Hcontained _ e ltac:(log_has)) as Hguard;
           cbn [guarded] in Hguard; congruence
       end.
Qed.

(** C1, as amended.  In a run in which every exception met a handler
    (an import raised nothing but [ImportError], a call inside a main
    [try] block raised nothing outside [Exception], and the
    [CICIDSPreprocessor()] of line 96 did not raise), each procedure
    returns a boolean, and so does [main]. *)
Theorem C1_handled_exceptions_never_escape w :
  let nsl := train_nsl_kdd_baseline C root w in
  let cic := train_cic_baseline C root w in
  let both := main C root w in
  (contained (log nsl) → ∃ b, res nsl = Returned b) ∧
  (contained (log cic) → ∃ b, res cic = Returned b) ∧
  (contained (log both) → ∃ b, res both = Returned b).
Proof.
  cbv zeta. split; [apply nsl_contained|]. split; [apply cic_contained|].
  rewrite main_runs.
  destruct (res (train_nsl_kdd_baseline C root w)) as [b1|e1] eqn:Hnsl; cbn [log res].
  - destruct (res (train_cic_baseline C root _)) as [b2|e2] eqn:Hcic; cbn [log res].
    + by eexists.
    + intros [_ [_ Hc]%contained_app]%(contained_app [_; _]).
      apply cic_contained in Hc as [b Hb]. congruence.
  - intros [_ Hc]%(contained_app [_; _]).
    apply nsl_contained in Hc as [b Hb]. congruence.
Qed.

End Driver.

(** ** The two procedures *)

Section Procedures.
Context `{Domain} (C : Collaborators) (root : path) (w : World).

(** C3.  Whenever [train_all] is called, its first argument is the
    training split (the one [fit_transform] returned for NSL-KDD, the
    first part of the first split for CIC) and its exclusion list is
    decided by that split's row count alone: [["svm_linear"]] above 5,000
    rows and [[]] otherwise for NSL-KDD, [["svm_linear"; "knn"]] above
    10,000 rows and [[]] otherwise for CIC. *)
Theorem C3_exclusion_is_a_function_of_training_rows :
  let nsl := train_nsl_kdd_baseline C root w in
  let cic := train_cic_baseline C root w in
  (∀ b X y exclude_models r,
      Called (c_train_all b X y exclude_models) r ∈ log nsl →
      (∃ p data X_val y_val,
          Called (c_nsl_fit_transform p data) (Returned (VSplit (X, X_val, y, y_val)))
            ∈ log nsl) ∧
      (5000 < len X → exclude_models = ["svm_linear"]) ∧
      (len X ≤ 5000 → exclude_models = [])) ∧
  (∀ b X y exclude_models r,
      Called (c_train_all b X y exclude_models) r ∈ log cic →
      (∃ X_full y_full X_temp y_temp,
          Called (c_train_test_split X_full y_full 0.4%Q 42 y_full)
            (Returned (VSplit (X, X_temp, y, y_temp))) ∈ log cic) ∧
      (10000 < len X → exclude_models = ["svm_linear"; "knn"]) ∧
      (len X ≤ 10000 → exclude_models = [])).
Proof.
  cbv zeta. split.
  - symex (train_nsl_kdd_baseline C root) w.
    all: intros bm X y ex r Htrain; in_log Htrain; simplify_eq.
    all: split; [do 4 eexists; log_has|].
    all: case_bool_decide; split; intros; first [done | lia].
  - symex (train_cic_baseline C root) w.
    all: intros bm X y ex r Htrain; in_log Htrain; simplify_eq.
    all: split; [do 4 eexists; log_has|].
    all: case_bool_decide; split; intros; first [done | lia].
Qed.


(** C5.  Empty leaderboard: when [evaluate_all] returns an empty
    leaderboard the procedure returns [False]; [evaluate_model] is not
    called and nothing is persisted. *)
Theorem C5_empty_leaderboard_returns_False :
  let nsl := train_nsl_kdd_baseline C root w in
  let cic := train_cic_baseline C root w in
  (∀ b X y,
      Called (c_evaluate_all b X y) (Returned (VLeaderboard [])) ∈ log nsl →
      res nsl = Returned false ∧
      ¬ called is_evaluate_model (log nsl) ∧ ¬ called is_persistence (log nsl)) ∧
  (∀ b X y,
      Called (c_evaluate_all b X y) (Returned (VLeaderboard [])) ∈ log cic →
      res cic = Returned false ∧
      ¬ called is_evaluate_model (log cic) ∧ ¬ called is_persistence (log cic)).
Proof.
  cbv zeta. split.
  - symex (train_nsl_kdd_baseline C root) w.
    all: intros bm X y Heval; in_log Heval; simplify_eq.
    all: split; [reflexivity | split; not_called].
  - symex (train_cic_baseline C root) w.
    all: intros bm X y Heval; in_log Heval; simplify_eq.
    all: split; [reflexivity | split; not_called].
Qed.


(** C7.  Whenever [evaluate_model] is called, the name it is given is
    the [model_name] of the first row of the leaderboard that
    [evaluate_all] returned on the same models object, taken in the order
    in which it was returned (the order in which it is printed). *)
Theorem C7_best_model_is_first_leaderboard_row :
  let nsl := train_nsl_kdd_baseline C root w in
  let cic := train_cic_baseline C root w in
  (∀ b name X y r,
      Called (c_evaluate_model b name X y) r ∈ log nsl →
      ∃ X_val y_val first_row others,
        Called (c_evaluate_all b X_val y_val) (Returned (VLeaderboard (first_row :: others)))
          ∈ log nsl ∧
        Printed (MLeaderboard (first_row :: others)) ∈ log nsl ∧
        name = model_name first_row) ∧
  (∀ b name X y r,
      Called (c_evaluate_model b name X y) r ∈ log cic →
      ∃ X_val y_val first_row others,
        Called (c_evaluate_all b X_val y_val) (Returned (VLeaderboard (first_row :: others)))
          ∈ log cic ∧
        Printed (MLeaderboard (first_row :: others)) ∈ log cic ∧
        name = model_name first_row).
Proof.
  cbv zeta. split.
  - symex (train_nsl_kdd_baseline C root) w.
    all: intros bm name X y r Heval; in_log Heval; simplify_eq.
    all: do 4 eexists; (split; [log_has | split; [log_has | reflexivity]]).
  - symex (train_cic_baseline C root) w.
    all: intros bm name X y r Heval; in_log Heval; simplify_eq.
    all: do 4 eexists; (split; [log_has | split; [log_has | reflexivity]]).
Qed.

(** C8, as amended.  A procedure returns [True] only if the data was
    loaded, the validation leaderboard had at least one row and the
    persistence calls ([save_models], and [preprocessor.save] for
    NSL-KDD) were made and returned; and whenever a call inside the main
    [try] block raises an instance of [Exception], the traceback is
    printed and the procedure returns [False]. *)
Theorem C8_success_needs_every_stage_and_Exceptions_are_caught :
  let nsl := train_nsl_kdd_baseline C root w in
  let cic := train_cic_baseline C root w in
  ((res nsl = Returned true →
      (∃ a train_data test_data,
          Called (c_analyzer_load_data a "KDDTrain+.txt")
            (Returned (VDataset (Some train_data))) ∈ log nsl ∧
          Called (c_analyzer_load_data a "KDDTest+.txt")
            (Returned (VDataset (Some test_data))) ∈ log nsl) ∧
      (∃ b X y first_row others,
          Called (c_evaluate_all b X y) (Returned (VLeaderboard (first_row :: others)))
            ∈ log nsl) ∧
      (∃ b p models_dir results_dir file,
          Called (c_save_models b models_dir results_dir "_nsl") (Returned VNone) ∈ log nsl ∧
          Called (c_nsl_save p file) (Returned VNone) ∈ log nsl)) ∧
   (∀ c e, Called c (Raised e) ∈ log nsl → in_main_try c → is_Exception e = true →
           res nsl = Returned false ∧ Traceback e ∈ log nsl)) ∧
  ((res cic = Returned true →
      (∃ p cic_data,
          Called (c_cic_load_data p true) (Returned (VDataset (Some cic_data))) ∈ log cic) ∧
      (∃ b X y first_row others,
          Called (c_evaluate_all b X y) (Returned (VLeaderboard (first_row :: others)))
            ∈ log cic) ∧
      (∃ b models_dir results_dir,
          Called (c_save_models b models_dir results_dir "_cic") (Returned VNone) ∈ log cic)) ∧
   (∀ c e, Called c (Raised e) ∈ log cic → in_main_try c → is_Exception e = true →
           res cic = Returned false ∧ Traceback e ∈ log cic)).
Proof.
  cbv zeta. split.
  - symex (train_nsl_kdd_baseline C root) w.
    all: split;
      [ intros Htrue;
        first [ discriminate Htrue
              | split; [do 3 eexists; split; log_has
                       | split; [do 5 eexists; log_has | do 5 eexists; split; log_has]] ]
      | intros cl exc Hraised Htry Hexc; destruct cl; try (destruct Htry);
        in_log Hraised; simplify_eq;
        first [congruence | split; [reflexivity | log_has]] ].
  - symex (train_cic_baseline C root) w.
    all: split;
      [ intros Htrue;
        first [ discriminate Htrue
              | split; [do 2 eexists; log_has
                       | split; [do 5 eexists; log_has | do 3 eexists; log_has]] ]
      | intros cl exc Hraised Htry Hexc; destruct cl; try (destruct Htry);
        in_log Hraised; simplify_eq;
        first [congruence | split; [reflexivity | log_has]] ].
Qed.

(** C9.  [PROJECT_ROOT] is the second ancestor of the resolved script
    path, so for [<repo>/src/experiments/02_baseline_training.py] it is
    [<repo>/src] and not [<repo>]; it is the root the procedures are run
    with; every path handed to [save_models] or
    [preprocessor.save] is [PROJECT_ROOT] followed by one of the
    procedure's own targets; and no NSL-KDD target lies at or below a CIC
    target or the other way round. *)
Theorem C9_outputs_are_anchored_and_disjoint :
  let nsl := train_nsl_kdd_baseline C root w in
  let cic := train_cic_baseline C root w in
  (∀ (top : path) (dir file : string),
      PROJECT_ROOT (top ++ [dir; file]) = Some top) ∧
  (∀ repo : path,
      PROJECT_ROOT (repo ++ ["src"; "experiments"; "02_baseline_training.py"])
        = Some (repo ++ ["src"]) ∧
      repo ++ ["src"] ≠ repo) ∧
  (∀ file project_root,
      PROJECT_ROOT file = Some project_root →
      run_script C file = script_entry C project_root) ∧
  (∀ s, s ∈ written_paths (log nsl) → ∃ rel, rel ∈ nsl_targets ∧ s = str (root ++ rel)) ∧
  (∀ s, s ∈ written_paths (log cic) → ∃ rel, rel ∈ cic_targets ∧ s = str (root ++ rel)) ∧
  (∀ a b, a ∈ nsl_targets → b ∈ cic_targets →
          ¬ (root ++ a) `prefix_of` (root ++ b) ∧ ¬ (root ++ b) `prefix_of` (root ++ a)).
Proof.
  cbv zeta.
  split; [exact PROJECT_ROOT_two_up|]. split; [|split; [|split; [|split]]].
  - intros repo. split.
    + change (repo ++ ["src"; "experiments"; "02_baseline_training.py"])
        with (repo ++ (["src"] ++ ["experiments"; "02_baseline_training.py"])).
      rewrite app_assoc. apply PROJECT_ROOT_two_up.
    + intros Heq. apply (f_equal length) in Heq. rewrite length_app in Heq. cbn in Heq. lia.
  - intros file project_root Hroot. unfold run_script. by rewrite Hroot.
  - symex (train_nsl_kdd_baseline C root) w.
    all: cbn [written_paths flat_map app]; intros s Hs.
    all: rewrite ?joinpath_app, <- ?app_assoc in Hs; cbn [app] in Hs.
    all: rewrite ?elem_of_cons, elem_of_nil in Hs.
    all: destruct_or?; try done; subst s.
    all: eexists; (split; [|reflexivity]); unfold nsl_targets; set_solver.
  - symex (train_cic_baseline C root) w.
    all: cbn [written_paths flat_map app]; intros s Hs.
    all: rewrite ?joinpath_app, <- ?app_assoc in Hs; cbn [app] in Hs.
    all: rewrite ?elem_of_cons, elem_of_nil in Hs.
    all: destruct_or?; try done; subst s.
    all: eexists; (split; [|reflexivity]); unfold cic_targets; set_solver.
  - intros a b Ha%list_elem_of_In Hb%list_elem_of_In.
    cbn [nsl_targets cic_targets In] in Ha, Hb.
    destruct_or?; try done; subst a b.
    all: split; intros [k Hk]%prefix_app_inv; discriminate Hk.
Qed.

(** C10.  Whatever metric record [evaluate_model] returns, each of the
    four reported metrics it lacks is printed as NaN, the procedure goes
    on to [save_models], and it returns [True] unless a persistence call
    raises: a missing key alone never makes the result [False]. *)
Theorem C10_missing_metric_is_reported_as_nan :
  let nsl := train_nsl_kdd_baseline C root w in
  let cic := train_cic_baseline C root w in
  (∀ b name X y m,
      Called (c_evaluate_model b name X y) (Returned (VMetrics m)) ∈ log nsl →
      (∀ metric, metric ∈ reported_metrics → m !! metric = None →
                 Printed (MMetric metric nan) ∈ log nsl) ∧
      called is_save_models (log nsl) ∧
      (res nsl = Returned true ∨
       ∃ c e, Called c (Raised e) ∈ log nsl ∧ is_persistence c)) ∧
  (∀ b name X y m,
      Called (c_evaluate_model b name X y) (Returned (VMetrics m)) ∈ log cic →
      (∀ metric, metric ∈ reported_metrics → m !! metric = None →
                 Printed (MMetric metric nan) ∈ log cic) ∧
      called is_save_models (log cic) ∧
      (res cic = Returned true ∨
       ∃ c e, Called c (Raised e) ∈ log cic ∧ is_persistence c)).
Proof.
  cbv zeta. split.
  - symex (train_nsl_kdd_baseline C root) w.
    all: intros bm name X y m Heval; in_log Heval; simplify_eq.
    all: split; [|split].
    all: try (intros metric Hmetric Hnone; unfold reported_metrics in Hmetric;
              rewrite !elem_of_cons, elem_of_nil in Hmetric;
              destruct Hmetric as [->|[->|[->|[->|[]]]]];
              rewrite Hnone; log_has).
    all: try (do 2 eexists; split; [log_has | exact I]).
    all: first [ left; reflexivity
               | right; do 2 eexists; split; [log_has | exact I] ].
  - symex (train_cic_baseline C root) w.
    all: intros bm name X y m Heval; in_log Heval; simplify_eq.
    all: split; [|split].
    all: try (intros metric Hmetric Hnone; unfold reported_metrics in Hmetric;
              rewrite !elem_of_cons, elem_of_nil in Hmetric;
              destruct Hmetric as [->|[->|[->|[->|[]]]]];
              rewrite Hnone; log_has).
    all: try (do 2 eexists; split; [log_has | exact I]).
    all: first [ left; reflexivity
               | right; do 2 eexists; split; [log_has | exact I] ].
Qed.

End Procedures.

(** ** The theorems at work in the concrete world *)

Import Toy.

(** Membership facts about the transcript of a concrete run are settled by
    running it. *)
Ltac ran_and_logged := vm_compute; log_has.

(** A [ValueError] during training is caught: [main] still returns. *)
Lemma C1_witness :
  contained (log (main (collaborators failing) root 0%nat)) ∧
  ∃ b, res (main (collaborators failing) root 0%nat) = Returned b.
Proof.
  assert (Hcontained : contained (log (main (collaborators failing) root 0%nat))).
  { intros c e Hin. vm_compute in Hin.
    in_log_any Hin; injection Hin as -> ->; reflexivity. }
  split; [exact Hcontained|].
  destruct (C1_handled_exceptions_never_escape (collaborators failing) root 0%nat)
    as (_ & _ & Hmain).
  exact (Hmain Hcontained).
Defined.

(** C1, as stated, fails: the NSL-KDD loader ends the process with
    [sys.exit(1)]; [SystemExit] is not an [Exception], passes the handler of
    line 78 and leaves the procedure. *)
Lemma C1_counterexample :
  ¬ ∃ b, res (train_nsl_kdd_baseline (collaborators exiting) root 0%nat) = Returned b.
Proof. intros [b Hb]. vm_compute in Hb. discriminate Hb. Qed.

(** The constructor call of line 96 stands outside both [try] blocks of
    [train_cic_baseline]: an ordinary [RuntimeError] raised there leaves the
    procedure and [main], whereas the NSL-KDD procedure makes all its
    constructor calls inside its main [try] block. *)
Example cic_constructor_error_escapes :
  res (train_cic_baseline (collaborators broken_constructor) root 0%nat)
    = Raised runtime_error ∧
  res (main (collaborators broken_constructor) root 0%nat) = Raised runtime_error.
Proof. split; reflexivity. Qed.


Lemma C3_witness :
  let nsl := train_nsl_kdd_baseline (collaborators large) root 0%nat in
  let cic := train_cic_baseline (collaborators large) root 0%nat in
  (Called (c_train_all tt 8000 8000 ["svm_linear"]) (Returned VNone) ∈ log nsl ∧
   5000 < len 8000 ∧ (["svm_linear"] : list string) = ["svm_linear"]) ∧
  (Called (c_train_all tt 12000 12000 ["svm_linear"; "knn"]) (Returned VNone) ∈ log cic ∧
   10000 < len 12000 ∧ (["svm_linear"; "knn"] : list string) = ["svm_linear"; "knn"]).
Proof.
  cbv zeta.
  destruct (C3_exclusion_is_a_function_of_training_rows (collaborators large) root 0%nat)
    as [Hnsl Hcic].
  assert (Hin_nsl : Called (c_train_all tt 8000 8000 ["svm_linear"]) (Returned VNone)
                      ∈ log (train_nsl_kdd_baseline (collaborators large) root 0%nat))
    by ran_and_logged.
  assert (Hin_cic : Called (c_train_all tt 12000 12000 ["svm_linear"; "knn"]) (Returned VNone)
                      ∈ log (train_cic_baseline (collaborators large) root 0%nat))
    by ran_and_logged.
  assert (Hbig_nsl : 5000 < len 8000) by reflexivity.
  assert (Hbig_cic : 10000 < len 12000) by reflexivity.
  split; (split; [assumption | split; [assumption|]]).
  - by apply (Hnsl _ _ _ _ _ Hin_nsl).
  - by apply (Hcic _ _ _ _ _ Hin_cic).
Defined.


Lemma C5_witness :
  let nsl := train_nsl_kdd_baseline (collaborators no_models) root 0%nat in
  Called (c_evaluate_all tt 20 20) (Returned (VLeaderboard [])) ∈ log nsl ∧
  res nsl = Returned false ∧
  ¬ called is_evaluate_model (log nsl) ∧ ¬ called is_persistence (log nsl).
Proof.
  cbv zeta.
  assert (Hempty : Called (c_evaluate_all tt 20 20) (Returned (VLeaderboard []))
                     ∈ log (train_nsl_kdd_baseline (collaborators no_models) root 0%nat))
    by ran_and_logged.
  split; [exact Hempty|].
  exact (proj1 (C5_empty_leaderboard_returns_False (collaborators no_models) root 0%nat)
           _ _ _ Hempty).
Defined.


(** The leaderboard of this run is not sorted: the first row, [knn], scores
    below the second, and is the one evaluated. *)
Lemma C7_witness :
  let nsl := train_nsl_kdd_baseline (collaborators happy) root 0%nat in
  Called (c_evaluate_model tt "knn" 40 40) (Returned (VMetrics only_accuracy)) ∈ log nsl ∧
  ∃ X_val y_val first_row others,
    Called (c_evaluate_all tt X_val y_val) (Returned (VLeaderboard (first_row :: others)))
      ∈ log nsl ∧
    Printed (MLeaderboard (first_row :: others)) ∈ log nsl ∧
    "knn" = model_name first_row.
Proof.
  cbv zeta.
  assert (Heval : Called (c_evaluate_model tt "knn" 40 40) (Returned (VMetrics only_accuracy))
                    ∈ log (train_nsl_kdd_baseline (collaborators happy) root 0%nat))
    by ran_and_logged.
  split; [exact Heval|].
  exact (proj1 (C7_best_model_is_first_leaderboard_row (collaborators happy) root 0%nat)
           _ _ _ _ _ Heval).
Defined.

Lemma C8_witness :
  let nsl := train_nsl_kdd_baseline (collaborators failing) root 0%nat in
  Called (c_train_all tt 80 80 []) (Raised value_error) ∈ log nsl ∧
  in_main_try (c_train_all tt 80 80 []) ∧
  is_Exception value_error = true ∧
  res nsl = Returned false ∧ Traceback value_error ∈ log nsl.
Proof.
  cbv zeta.
  assert (Hraised : Called (c_train_all tt 80 80 []) (Raised value_error)
                      ∈ log (train_nsl_kdd_baseline (collaborators failing) root 0%nat))
    by ran_and_logged.
  split; [exact Hraised|]. split; [exact I|]. split; [reflexivity|].
  destruct (C8_success_needs_every_stage_and_Exceptions_are_caught
              (collaborators failing) root 0%nat) as [[_ Hcaught] _].
  exact (Hcaught _ _ Hraised I eq_refl).
Defined.

(** C8, as stated, fails: the user interrupts training with Ctrl-C.  The
    call is inside the main [try] block, but [KeyboardInterrupt] is not an
    [Exception]: it passes the handler, the procedure prints no traceback
    and returns nothing. *)
Lemma C8_counterexample :
  let nsl := train_nsl_kdd_baseline (collaborators interrupted) root 0%nat in
  ¬ (∀ c e, Called c (Raised e) ∈ log nsl → in_main_try c →
            res nsl = Returned false ∧ Traceback e ∈ log nsl).
Proof.
  cbv zeta. intros Hcaught.
  destruct (Hcaught (@c_train_all domain tt 80 80 []) keyboard_interrupt) as [Hres _];
    [ran_and_logged | exact I |].
  vm_compute in Hres. discriminate Hres.
Qed.

Lemma C9_witness :
  let nsl := train_nsl_kdd_baseline (collaborators happy) root 0%nat in
  "/repo/src/data/models/baseline/nsl_preprocessor.pkl" ∈ written_paths (log nsl) ∧
  ∃ rel, rel ∈ nsl_targets ∧
         "/repo/src/data/models/baseline/nsl_preprocessor.pkl" = str (root ++ rel).
Proof.
  cbv zeta.
  assert (Hwritten :
            "/repo/src/data/models/baseline/nsl_preprocessor.pkl"
              ∈ written_paths (log (train_nsl_kdd_baseline (collaborators happy) root 0%nat)))
    by ran_and_logged.
  split; [exact Hwritten|].
  destruct (C9_outputs_are_anchored_and_disjoint (collaborators happy) root 0%nat)
    as (_ & _ & _ & Hnsl & _).
  exact (Hnsl _ Hwritten).
Defined.

(** The metric record of this run has the key [accuracy] only. *)
Lemma C10_witness :
  let nsl := train_nsl_kdd_baseline (collaborators happy) root 0%nat in
  Called (c_evaluate_model tt "knn" 40 40) (Returned (VMetrics only_accuracy)) ∈ log nsl ∧
  "recall" ∈ reported_metrics ∧
  only_accuracy !! "recall" = None ∧
  Printed (MMetric "recall" nan) ∈ log nsl ∧
  res nsl = Returned true.
Proof.
  cbv zeta.
  assert (Heval : Called (c_evaluate_model tt "knn" 40 40) (Returned (VMetrics only_accuracy))
                    ∈ log (train_nsl_kdd_baseline (collaborators happy) root 0%nat))
    by ran_and_logged.
  assert (Hreported : "recall" ∈ reported_metrics) by ran_and_logged.
  assert (Hmissing : only_accuracy !! "recall" = None) by (vm_compute; reflexivity).
  split; [exact Heval|]. split; [exact Hreported|]. split; [exact Hmissing|].
  destruct (C10_missing_metric_is_reported_as_nan (collaborators happy) root 0%nat)
    as [Hnsl _].
  destruct (Hnsl _ _ _ _ _ Heval) as [Hnan _].
  split; [exact (Hnan _ Hreported Hmissing) | reflexivity].
Defined.

(** ** Further properties of the script *)

Section MoreLemmas.
Context `{Domain}.

Lemma raised_calls_spec t c e : (c, e) ∈ raised_calls t ↔ Called c (Raised e) ∈ t.
Proof.
  induction t as [|ev t IH]; cbn.
  - by rewrite !elem_of_nil.
  - destruct ev as [m|c' [v|e']|e']; cbn; rewrite ?elem_of_cons, IH;
      intuition (try congruence).
Qed.

Lemma no_call_after t :
  forallb (λ ev, negb (is_call ev)) t = true → ∀ c r, Called c r ∉ t.
Proof.
  rewrite forallb_forall. intros Hall c r Hin%list_elem_of_In.
  by specialize (Hall _ Hin).
Qed.

Lemma stops_at_first_raise_spec t :
  stops_at_first_raise t = true →
  ∀ t1 c e t2, t = t1 ++ Called c (Raised e) :: t2 → ∀ c' r', Called c' r' ∉ t2.
Proof.
  intros Hstops t1. revert t Hstops.
  induction t1 as [|ev t1 IH]; intros t Hstops c e t2 ->; cbn in Hstops.
  - by apply no_call_after.
  - destruct ev as [m|c0 [v|e0]|e0]; try by eapply IH.
    exfalso. rewrite forallb_forall in Hstops.
    by specialize (Hstops (Called c (Raised e)) ltac:(apply in_elt)).
Qed.

End MoreLemmas.

(** *** The two procedures, call by call *)

Section MoreProcedures.
Context `{Domain} (C : Collaborators) (root : path) (w : World).

(** X1.  The functions a procedure calls, in the order of the calls, are
    always an initial part of one fixed sequence (the calls of lines 29-74,
    respectively 90-148, in source order): no call is repeated, skipped or
    reordered.  A run that returns [True] has made all of them. *)
Theorem X1_calls_follow_the_pipeline :
  let nsl := train_nsl_kdd_baseline C root w in
  let cic := train_cic_baseline C root w in
  (called_functions (log nsl) `prefix_of` nsl_pipeline ∧
   (res nsl = Returned true → called_functions (log nsl) = nsl_pipeline)) ∧
  (called_functions (log cic) `prefix_of` cic_pipeline ∧
   (res cic = Returned true → called_functions (log cic) = cic_pipeline)).
Proof.
  cbv zeta. split.
  - symex (train_nsl_kdd_baseline C root) w.
    all: split; [by eexists | by intros [=]].
  - symex (train_cic_baseline C root) w.
    all: split; [by eexists | by intros [=]].
Qed.

(** X2.  Once a collaborator call has raised, the procedure makes no
    further call (no retry, no clean-up of what was already written), and it
    does not return [True]. *)
Theorem X2_no_call_after_a_raise :
  let nsl := train_nsl_kdd_baseline C root w in
  let cic := train_cic_baseline C root w in
  (∀ t1 c e t2, log nsl = t1 ++ Called c (Raised e) :: t2 →
     (∀ c' r', Called c' r' ∉ t2) ∧ res nsl ≠ Returned true) ∧
  (∀ t1 c e t2, log cic = t1 ++ Called c (Raised e) :: t2 →
     (∀ c' r', Called c' r' ∉ t2) ∧ res cic ≠ Returned true).
Proof.
  cbv zeta.
  assert (Hnsl : stops_at_first_raise (log (train_nsl_kdd_baseline C root w)) = true ∧
                 (res (train_nsl_kdd_baseline C root w) = Returned true →
                  raised_calls (log (train_nsl_kdd_baseline C root w)) = [])).
  { symex (train_nsl_kdd_baseline C root) w. all: split; [reflexivity | by intros [=]]. }
  assert (Hcic : stops_at_first_raise (log (train_cic_baseline C root w)) = true ∧
                 (res (train_cic_baseline C root w) = Returned true →
                  raised_calls (log (train_cic_baseline C root w)) = [])).
  { symex (train_cic_baseline C root) w. all: split; [reflexivity | by intros [=]]. }
  split.
  - intros t1 c e t2 Hlog. split; [by eapply stops_at_first_raise_spec, Hlog; apply Hnsl|].
    intros Htrue. apply Hnsl in Htrue.
    assert (Hin : (c, e) ∈ raised_calls (log (train_nsl_kdd_baseline C root w)))
      by (apply raised_calls_spec; rewrite Hlog; apply elem_of_app; right; left).
    rewrite Htrue in Hin. by apply elem_of_nil in Hin.
  - intros t1 c e t2 Hlog. split; [by eapply stops_at_first_raise_spec, Hlog; apply Hcic|].
    intros Htrue. apply Hcic in Htrue.
    assert (Hin : (c, e) ∈ raised_calls (log (train_cic_baseline C root w)))
      by (apply raised_calls_spec; rewrite Hlog; apply elem_of_app; right; left).
    rewrite Htrue in Hin. by apply elem_of_nil in Hin.
Qed.

(** X3.  When an import raises an [ImportError], the procedure returns
    [False] after printing the import-error line: no traceback is printed and
    nothing but imports has been called.  Any other exception raised by an
    import leaves the procedure, and no failure line is printed. *)
Theorem X3_import_failure :
  let nsl := train_nsl_kdd_baseline C root w in
  let cic := train_cic_baseline C root w in
  (∀ module names e,
      Called (c_import module names) (Raised e) ∈ log nsl →
      (is_ImportError e = true →
         res nsl = Returned false ∧ Printed (MImportError e) ∈ log nsl ∧
         List.filter is_traceback (log nsl) = [] ∧
         Forall (λ f, f = F_import) (called_functions (log nsl))) ∧
      (is_ImportError e = false → res nsl = Raised e ∧
         List.filter is_failure_message (log nsl) = [])) ∧
  (∀ module names e,
      Called (c_import module names) (Raised e) ∈ log cic →
      (is_ImportError e = true →
         res cic = Returned false ∧ Printed (MImportError e) ∈ log cic ∧
         List.filter is_traceback (log cic) = [] ∧
         Forall (λ f, f = F_import) (called_functions (log cic))) ∧
      (is_ImportError e = false → res cic = Raised e ∧
         List.filter is_failure_message (log cic) = [])).
Proof.
  cbv zeta. split.
  - symex (train_nsl_kdd_baseline C root) w.
    all: intros module names exc Himport; in_log Himport; simplify_eq.
    all: split; intros Hkind; try congruence.
    all: first [ by repeat split; [log_has | repeat constructor] | done ].
  - symex (train_cic_baseline C root) w.
    all: intros module names exc Himport; in_log Himport; simplify_eq.
    all: split; intros Hkind; try congruence.
    all: first [ by repeat split; [log_has | repeat constructor] | done ].
Qed.

(** X4.  A procedure that returns [False] has printed exactly one failure
    line (import error, missing data, no validation results, or error
    during training); it returns [True] exactly when it has printed its
    completion line, and then it has printed no failure line. *)
Theorem X4_failures_are_explained :
  let nsl := train_nsl_kdd_baseline C root w in
  let cic := train_cic_baseline C root w in
  ((res nsl = Returned false → ∃ m, List.filter is_failure_message (log nsl) = [Printed m]) ∧
   (res nsl = Returned true ↔ Printed (MComplete NSL) ∈ log nsl) ∧
   (res nsl = Returned true → List.filter is_failure_message (log nsl) = [])) ∧
  ((res cic = Returned false → ∃ m, List.filter is_failure_message (log cic) = [Printed m]) ∧
   (res cic = Returned true ↔ Printed (MComplete CIC) ∈ log cic) ∧
   (res cic = Returned true → List.filter is_failure_message (log cic) = [])).
Proof.
  cbv zeta. split.
  - symex (train_nsl_kdd_baseline C root) w.
    all: split; [intros Hres; first [discriminate Hres | by eexists]|].
    all: split; [|intros Hres; first [discriminate Hres | reflexivity]].
    all: split; [intros Hres; first [discriminate Hres | log_has]
                | intros Hin; first [reflexivity | in_log Hin] ].
  - symex (train_cic_baseline C root) w.
    all: split; [intros Hres; first [discriminate Hres | by eexists]|].
    all: split; [|intros Hres; first [discriminate Hres | reflexivity]].
    all: split; [intros Hres; first [discriminate Hres | log_has]
                | intros Hin; first [reflexivity | in_log Hin] ].
Qed.

(** X5.  A traceback is printed only for an instance of [Exception]
    raised by a call inside the main [try] block: it comes with the error
    line for the same exception and a [False] result, and it is the only
    traceback of the run.  Missing data, an empty leaderboard and a failed
    import print none. *)
Theorem X5_traceback_only_for_caught_exceptions :
  let nsl := train_nsl_kdd_baseline C root w in
  let cic := train_cic_baseline C root w in
  (∀ e, Traceback e ∈ log nsl →
        res nsl = Returned false ∧ is_Exception e = true ∧
        Printed (MError NSL e) ∈ log nsl ∧
        (∃ c, Called c (Raised e) ∈ log nsl ∧ in_main_try c) ∧
        List.filter is_traceback (log nsl) = [Traceback e]) ∧
  (∀ e, Traceback e ∈ log cic →
        res cic = Returned false ∧ is_Exception e = true ∧
        Printed (MError CIC e) ∈ log cic ∧
        (∃ c, Called c (Raised e) ∈ log cic ∧ in_main_try c) ∧
        List.filter is_traceback (log cic) = [Traceback e]).
Proof.
  cbv zeta. split.
  - symex (train_nsl_kdd_baseline C root) w.
    all: intros exc Htb; in_log Htb; simplify_eq.
    all: split; [reflexivity|]; split; [assumption|]; split; [log_has|].
    all: split; [eexists; split; [log_has | exact I] | reflexivity].
  - symex (train_cic_baseline C root) w.
    all: intros exc Htb; in_log Htb; simplify_eq.
    all: split; [reflexivity|]; split; [assumption|]; split; [log_has|].
    all: split; [eexists; split; [log_has | exact I] | reflexivity].
Qed.

(** X6.  Data flow of the NSL-KDD procedure.  The test file is requested
    whenever the load of the training file returned, also when it returned
    [None]; [fit_transform] is given the data loaded from [KDDTrain+.txt];
    [transform] is given the data loaded from [KDDTest+.txt], on the
    preprocessor that [fit_transform] returned from; [evaluate_all] is given
    the validation part of the split whose training part [train_all] was
    given, on the same models object; and [evaluate_model] is given what
    [transform] returned. *)
Theorem X6_nsl_data_flow :
  let nsl := train_nsl_kdd_baseline C root w in
  (∀ a d, Called (c_analyzer_load_data a "KDDTrain+.txt") (Returned (VDataset d)) ∈ log nsl →
          ∃ r, Called (c_analyzer_load_data a "KDDTest+.txt") r ∈ log nsl) ∧
  (∀ p data r,
      Called (c_nsl_fit_transform p data) r ∈ log nsl →
      ∃ a, Called (c_analyzer_load_data a "KDDTrain+.txt") (Returned (VDataset (Some data)))
             ∈ log nsl) ∧
  (∀ p data r,
      Called (c_nsl_transform p data) r ∈ log nsl →
      (∃ a, Called (c_analyzer_load_data a "KDDTest+.txt") (Returned (VDataset (Some data)))
              ∈ log nsl) ∧
      (∃ train_data s, Called (c_nsl_fit_transform p train_data) (Returned (VSplit s)) ∈ log nsl)) ∧
  (∀ b X y r,
      Called (c_evaluate_all b X y) r ∈ log nsl →
      ∃ p data X_train y_train ex,
        Called (c_nsl_fit_transform p data) (Returned (VSplit (X_train, X, y_train, y))) ∈ log nsl ∧
        Called (c_train_all b X_train y_train ex) (Returned VNone) ∈ log nsl) ∧
  (∀ b name X y r,
      Called (c_evaluate_model b name X y) r ∈ log nsl →
      ∃ p data, Called (c_nsl_transform p data) (Returned (VXy (X, y))) ∈ log nsl).
Proof.
  cbv zeta. symex (train_nsl_kdd_baseline C root) w.
  all: split; [intros an dset Hev; in_log Hev; simplify_eq; eexists; log_has|].
  all: split; [intros pre dset r Hev; in_log Hev; simplify_eq; eexists; log_has|].
  all: split; [intros pre dset r Hev; in_log Hev; simplify_eq;
               (split; [eexists; log_has | do 2 eexists; log_has])|].
  all: split; [intros bm X y r Hev; in_log Hev; simplify_eq;
               do 5 eexists; split; log_has|].
  all: intros bm name X y r Hev; in_log Hev; simplify_eq; do 2 eexists; log_has.
Qed.

(** X7.  [save_models] is called only after [evaluate_model] has returned
    on the same models object, with the procedure's own directories and
    suffix ([_nsl], [_cic]); the NSL-KDD preprocessor is saved only after
    [save_models] has returned, it is the preprocessor that was fitted, and
    it goes to [nsl_preprocessor.pkl] in the models directory; the CIC
    procedure makes no persistence call other than [save_models]. *)
Theorem X7_persistence_only_after_test_evaluation :
  let nsl := train_nsl_kdd_baseline C root w in
  let cic := train_cic_baseline C root w in
  ((∀ b models_dir results_dir suffix r,
       Called (c_save_models b models_dir results_dir suffix) r ∈ log nsl →
       models_dir = str (root ++ ["data"; "models"; "baseline"]) ∧
       results_dir = str (root ++ ["data"; "results"; "nsl"]) ∧
       suffix = "_nsl" ∧
       ∃ name X y m, Called (c_evaluate_model b name X y) (Returned (VMetrics m)) ∈ log nsl) ∧
   (∀ p file r,
       Called (c_nsl_save p file) r ∈ log nsl →
       file = str (root ++ ["data"; "models"; "baseline"; "nsl_preprocessor.pkl"]) ∧
       (∃ data s, Called (c_nsl_fit_transform p data) (Returned (VSplit s)) ∈ log nsl) ∧
       (∃ b models_dir results_dir suffix,
           Called (c_save_models b models_dir results_dir suffix) (Returned VNone) ∈ log nsl))) ∧
  ((∀ b models_dir results_dir suffix r,
       Called (c_save_models b models_dir results_dir suffix) r ∈ log cic →
       models_dir = str (root ++ ["data"; "models"; "cic_baseline"]) ∧
       results_dir = str (root ++ ["data"; "results"; "cic"]) ∧
       suffix = "_cic" ∧
       ∃ name X y m, Called (c_evaluate_model b name X y) (Returned (VMetrics m)) ∈ log cic) ∧
   (∀ c r, Called c r ∈ log cic → is_persistence c → is_save_models c)).
Proof.
  cbv zeta. split.
  - symex (train_nsl_kdd_baseline C root) w.
    all: split.
    all: lazymatch goal with
         | |- ∀ b models_dir results_dir suffix r, _ =>
             intros bm md rd sf r Hev; in_log Hev; simplify_eq;
             rewrite ?joinpath_app, <- ?app_assoc; cbn [app];
             (split; [reflexivity|]); (split; [reflexivity|]); (split; [reflexivity|]);
             do 4 eexists; log_has
         | |- _ =>
             intros pre file r Hev; in_log Hev; simplify_eq;
             rewrite ?joinpath_app, <- ?app_assoc; cbn [app];
             (split; [reflexivity|]);
             (split; [do 2 eexists; log_has | do 4 eexists; log_has])
         end.
  - symex (train_cic_baseline C root) w.
    all: split.
    all: lazymatch goal with
         | |- ∀ b models_dir results_dir suffix r, _ =>
             intros bm md rd sf r Hev; in_log Hev; simplify_eq;
             rewrite ?joinpath_app, <- ?app_assoc; cbn [app];
             (split; [reflexivity|]); (split; [reflexivity|]); (split; [reflexivity|]);
             do 4 eexists; log_has
         | |- _ =>
             intros cl r Hev Hp; destruct cl; try (destruct Hp); [in_log Hev | exact I]
         end.
Qed.

(** X8.  Every run of a procedure starts with the three lines of
    [_print_separator] for its title (a blank line, the title, the
    underline), before anything is imported. *)
Theorem X8_banner_comes_first :
  let nsl := train_nsl_kdd_baseline C root w in
  let cic := train_cic_baseline C root w in
  [Printed MBlank; Printed (MTitle NSL); Printed (MUnderline (MTitle NSL))]
    `prefix_of` log nsl ∧
  [Printed MBlank; Printed (MTitle CIC); Printed (MUnderline (MTitle CIC))]
    `prefix_of` log cic.
Proof.
  cbv zeta. split.
  - symex (train_nsl_kdd_baseline C root) w. all: by eexists.
  - symex (train_cic_baseline C root) w. all: by eexists.
Qed.

(** X9.  A procedure is left by an exception exactly when a call raised
    it where no handler of the script accepts it: an import raising
    something other than [ImportError], a call of the main [try] block
    raising something outside [Exception], or the [CICIDSPreprocessor()] of
    line 96 raising anything. *)
Theorem X9_escape_characterised :
  let nsl := train_nsl_kdd_baseline C root w in
  let cic := train_cic_baseline C root w in
  (∀ e, res nsl = Raised e ↔ ∃ c, Called c (Raised e) ∈ log nsl ∧ guarded c e = false) ∧
  (∀ e, res cic = Raised e ↔ ∃ c, Called c (Raised e) ∈ log cic ∧ guarded c e = false).
Proof.
  cbv zeta.
  setoid_rewrite <- raised_calls_spec.
  split.
  - symex (train_nsl_kdd_baseline C root) w.
    all: intros exc; cbn [raised_calls]; split.
    all: lazymatch goal with
         | |- _ = _ → _ =>
             intros [=]; subst; eexists; (split; [apply list_elem_of_here|]);
             cbn [guarded]; first [assumption | reflexivity]
         | |- _ =>
             intros (cl & Hin & Hg);
             rewrite ?elem_of_cons, elem_of_nil in Hin; destruct_or?; try done; simplify_eq;
             cbn [guarded] in Hg; first [reflexivity | congruence]
         end.
  - symex (train_cic_baseline C root) w.
    all: intros exc; cbn [raised_calls]; split.
    all: lazymatch goal with
         | |- _ = _ → _ =>
             intros [=]; subst; eexists; (split; [apply list_elem_of_here|]);
             cbn [guarded]; first [assumption | reflexivity]
         | |- _ =>
             intros (cl & Hin & Hg);
             rewrite ?elem_of_cons, elem_of_nil in Hin; destruct_or?; try done; simplify_eq;
             cbn [guarded] in Hg; first [reflexivity | congruence]
         end.
Qed.

End MoreProcedures.

(** *** The driver *)

Section MoreDriver.
Context `{Domain} (C : Collaborators) (root : path).

(** X10.  When both procedures return, [main] ends its output with the
    separator and exactly one status line, which tells which of the two
    returned [True]: both, NSL-KDD only, CIC-IDS-2017 only, or neither. *)
Theorem X10_status_line_matches_results w :
  let nsl := train_nsl_kdd_baseline C root w in
  let cic := train_cic_baseline C root (final nsl) in
  let both := main C root w in
  ∀ success_nsl success_cic,
    res nsl = Returned success_nsl → res cic = Returned success_cic →
    ∃ line,
      log both = [Printed MPipeline; Printed MRule60] ++ log nsl ++ log cic ++
                 [Printed MBlankRule60; Printed line] ∧
      (line = MBoth ↔ success_nsl = true ∧ success_cic = true) ∧
      (line = MOnly NSL ↔ success_nsl = true ∧ success_cic = false) ∧
      (line = MOnly CIC ↔ success_nsl = false ∧ success_cic = true) ∧
      (line = MAllFailed ↔ success_nsl = false ∧ success_cic = false).
Proof.
  cbv zeta. intros b1 b2 Hnsl Hcic. rewrite main_runs.
  rewrite Hnsl, Hcic. cbn [log]. eexists. split; [reflexivity|].
  destruct b1, b2; cbn; intuition congruence.
Qed.

(** X11.  [main] has no handler of its own: an exception that leaves the
    NSL-KDD procedure leaves [main] at once, without the CIC procedure
    being run and without a status line; one that leaves the CIC procedure
    leaves [main] without a status line; [main] is left by an exception in
    these two cases only, and then no exit status is computed. *)
Theorem X11_main_is_left_by_an_escaping_exception w :
  let nsl := train_nsl_kdd_baseline C root w in
  let cic := train_cic_baseline C root (final nsl) in
  let both := main C root w in
  (∀ e, res nsl = Raised e →
        res both = Raised e ∧ final both = final nsl ∧
        log both = [Printed MPipeline; Printed MRule60] ++ log nsl ∧
        res (script_entry C root w) = Raised e) ∧
  (∀ success_nsl e, res nsl = Returned success_nsl → res cic = Raised e →
        res both = Raised e ∧ final both = final cic ∧
        log both = [Printed MPipeline; Printed MRule60] ++ log nsl ++ log cic ∧
        res (script_entry C root w) = Raised e) ∧
  (∀ e, res both = Raised e ↔
        res nsl = Raised e ∨ (∃ success_nsl, res nsl = Returned success_nsl) ∧ res cic = Raised e).
Proof.
  cbv zeta. unfold script_entry, mbind, py_bind, mret, py_ret. rewrite main_runs.
  destruct (train_nsl_kdd_baseline C root w) as [[b1|e1] w1 t1]; cbn [res final log].
  - destruct (train_cic_baseline C root w1) as [[b2|e2] w2 t2]; cbn [res final log].
    + split; [intros e [=]|]. split; [intros b e _ [=]|].
      intros e. split; [intros [=] | intros [[=]|[_ [=]]]].
    + split; [intros e [=]|]. split; [by intros b e _ [= ->]|].
      intros e. split; [intros [= ->]; right; eauto | intros [[=]|[_ [= ->]]]; done].
  - split; [by intros e [= ->]|]. split; [intros b e [=]|].
    intros e. split; [intros [= ->]; by left | intros [[= ->]|[[b [=]] _]]; done].
Qed.

End MoreDriver.

(** *** The project root *)

(** X12.  [PROJECT_ROOT] exists exactly for a script path of at least two
    components, and is then the path with its last two components removed;
    for a shorter path the [IndexError] of line 12 ends the script before
    anything is printed or called. *)
Theorem X12_PROJECT_ROOT_needs_two_components `{Domain} (C : Collaborators) (file : path) w :
  (PROJECT_ROOT file = None ↔ (length file < 2)%nat) ∧
  (∀ project_root, PROJECT_ROOT file = Some project_root ↔
                   ∃ dir name, file = project_root ++ [dir; name]) ∧
  ((length file < 2)%nat →
   ∃ e, run_script C file w = Result (Raised e) w [] ∧ is_Exception e = true).
Proof.
  split; [|split].
  - unfold PROJECT_ROOT, parents. case_decide; split; (done || lia).
  - intros pr. split; [|by intros (dir & name & ->); apply PROJECT_ROOT_two_up].
    unfold PROJECT_ROOT, parents. case_decide; [|done]. intros [= <-].
    pose proof (take_drop (length file - 2) file) as Hsplit.
    assert (Hlen : length (drop (length file - 2) file) = 2%nat)
      by (rewrite length_drop; lia).
    destruct (drop (length file - 2) file) as [|dir [|name [|]]]; try discriminate Hlen.
    exists dir, name.
    replace (length file - 1 - 1)%nat with (length file - 2)%nat by lia.
    by symmetry.
  - intros Hshort. unfold run_script, PROJECT_ROOT, parents.
    case_decide; [lia|]. by eexists.
Qed.

(** *** The report loop *)

Section MoreReport.
Context `{Domain}.

(** X13.  The report loop reads the metric record at the four reported
    keys only: two records that agree there give the same report. *)
Theorem X13_report_reads_the_four_metrics_only (m m' : gmap string pyfloat) w :
  (∀ metric, metric ∈ reported_metrics → m !! metric = m' !! metric) →
  report_metrics m w = report_metrics m' w.
Proof.
  intros Hagree. unfold report_metrics, reported_metrics in *.
  cbn [for_each]. unfold mbind, py_bind, print, mret, py_ret. cbn.
  rewrite !Hagree; [done|set_solver..].
Qed.

(** X14.  A value stored under a reported key is the value printed for
    that key; the loop never fails, leaves the world as it is, and prints
    lines for reported keys only. *)
Theorem X14_report_prints_stored_values (m : gmap string pyfloat) metric value w :
  metric ∈ reported_metrics →
  let run := report_metrics (<[metric := value]> m) w in
  res run = Returned tt ∧ final run = w ∧
  Printed (MMetric metric value) ∈ log run ∧
  (∀ k v, Printed (MMetric k v) ∈ log run → k ∈ reported_metrics).
Proof.
  intros Hin. cbv zeta.
  unfold report_metrics, reported_metrics in *.
  cbn [for_each]. unfold mbind, py_bind, print, mret, py_ret. cbn.
  split; [done|]. split; [done|]. split.
  - rewrite !elem_of_cons, elem_of_nil in Hin.
    destruct Hin as [->|[->|[->|[->|[]]]]].
    all: rewrite !elem_of_cons.
    + left. by rewrite lookup_insert_eq.
    + right; left. by rewrite lookup_insert_eq.
    + do 2 right; left. by rewrite lookup_insert_eq.
    + do 3 right; left. by rewrite lookup_insert_eq.
  - intros k v Hv. rewrite !elem_of_cons, elem_of_nil in Hv.
    rewrite !elem_of_cons.
    destruct Hv as [[=]|[[=]|[[=]|[[=]|[]]]]]; subst; auto.
Qed.

End MoreReport.

(** *** The further properties at work in the concrete world *)

Import Toy2.

Lemma X1_witness :
  let nsl := train_nsl_kdd_baseline (collaborators happy) root 0%nat in
  res nsl = Returned true ∧ called_functions (log nsl) = nsl_pipeline.
Proof.
  cbv zeta.
  assert (Htrue : res (train_nsl_kdd_baseline (collaborators happy) root 0%nat) = Returned true)
    by reflexivity.
  split; [exact Htrue|].
  exact (proj2 (proj1 (X1_calls_follow_the_pipeline (collaborators happy) root 0%nat)) Htrue).
Defined.

(** Training raises: the calls stop there. *)
Lemma X2_witness :
  let nsl := train_nsl_kdd_baseline (collaborators failing) root 0%nat in
  log nsl = take 14 (log nsl) ++
            Called (c_train_all tt 80 80 []) (Raised value_error) :: drop 15 (log nsl) ∧
  (∀ c' r', Called c' r' ∉ drop 15 (log nsl)) ∧ res nsl ≠ Returned true.
Proof.
  cbv zeta.
  assert (Hlog : log (train_nsl_kdd_baseline (collaborators failing) root 0%nat) =
                 take 14 (log (train_nsl_kdd_baseline (collaborators failing) root 0%nat)) ++
                 Called (c_train_all tt 80 80 []) (Raised value_error) ::
                 drop 15 (log (train_nsl_kdd_baseline (collaborators failing) root 0%nat)))
    by (vm_compute; reflexivity).
  split; [exact Hlog|].
  exact (proj1 (X2_no_call_after_a_raise (collaborators failing) root 0%nat) _ _ _ _ Hlog).
Defined.

(** A collaborator module is not installed. *)
Lemma X3_witness :
  let nsl := train_nsl_kdd_baseline (collaborators not_installed) root 0%nat in
  Called (c_import "src.preprocessing" ["NSLKDDAnalyzer"; "NSLKDDPreprocessor"])
    (Raised module_not_found) ∈ log nsl ∧
  is_ImportError module_not_found = true ∧
  res nsl = Returned false ∧ Printed (MImportError module_not_found) ∈ log nsl ∧
  List.filter is_traceback (log nsl) = [] ∧
  Forall (λ f, f = F_import) (called_functions (log nsl)).
Proof.
  cbv zeta.
  assert (Himport :
            Called (c_import "src.preprocessing" ["NSLKDDAnalyzer"; "NSLKDDPreprocessor"])
              (Raised module_not_found)
              ∈ log (train_nsl_kdd_baseline (collaborators not_installed) root 0%nat))
    by ran_and_logged.
  assert (Hkind : is_ImportError module_not_found = true) by reflexivity.
  split; [exact Himport|]. split; [exact Hkind|].
  exact (proj1 (proj1 (X3_import_failure (collaborators not_installed) root 0%nat)
                  _ _ _ Himport) Hkind).
Defined.

Lemma X4_witness :
  let nsl := train_nsl_kdd_baseline (collaborators no_models) root 0%nat in
  res nsl = Returned false ∧
  ∃ m, List.filter is_failure_message (log nsl) = [Printed m].
Proof.
  cbv zeta.
  assert (Hfalse : res (train_nsl_kdd_baseline (collaborators no_models) root 0%nat)
                   = Returned false) by reflexivity.
  split; [exact Hfalse|].
  exact (proj1 (proj1 (X4_failures_are_explained (collaborators no_models) root 0%nat)) Hfalse).
Defined.

Lemma X5_witness :
  let nsl := train_nsl_kdd_baseline (collaborators failing) root 0%nat in
  Traceback value_error ∈ log nsl ∧
  res nsl = Returned false ∧ is_Exception value_error = true ∧
  Printed (MError NSL value_error) ∈ log nsl ∧
  (∃ c, Called c (Raised value_error) ∈ log nsl ∧ in_main_try c) ∧
  List.filter is_traceback (log nsl) = [Traceback value_error].
Proof.
  cbv zeta.
  assert (Htb : Traceback value_error
                  ∈ log (train_nsl_kdd_baseline (collaborators failing) root 0%nat))
    by ran_and_logged.
  split; [exact Htb|].
  exact (proj1 (X5_traceback_only_for_caught_exceptions (collaborators failing) root 0%nat)
           _ Htb).
Defined.

Lemma X6_witness :
  let nsl := train_nsl_kdd_baseline (collaborators happy) root 0%nat in
  Called (c_evaluate_model tt "knn" 40 40) (Returned (VMetrics only_accuracy)) ∈ log nsl ∧
  ∃ p data, Called (c_nsl_transform p data) (Returned (VXy (40, 40))) ∈ log nsl.
Proof.
  cbv zeta.
  assert (Heval : Called (c_evaluate_model tt "knn" 40 40) (Returned (VMetrics only_accuracy))
                    ∈ log (train_nsl_kdd_baseline (collaborators happy) root 0%nat))
    by ran_and_logged.
  split; [exact Heval|].
  destruct (X6_nsl_data_flow (collaborators happy) root 0%nat) as (_ & _ & _ & _ & Hmodel).
  exact (Hmodel _ _ _ _ _ Heval).
Defined.

Lemma X7_witness :
  let nsl := train_nsl_kdd_baseline (collaborators happy) root 0%nat in
  Called (c_nsl_save tt "/repo/src/data/models/baseline/nsl_preprocessor.pkl")
    (Returned VNone) ∈ log nsl ∧
  "/repo/src/data/models/baseline/nsl_preprocessor.pkl"
    = str (root ++ ["data"; "models"; "baseline"; "nsl_preprocessor.pkl"]) ∧
  (∃ data s, Called (c_nsl_fit_transform tt data) (Returned (VSplit s)) ∈ log nsl) ∧
  (∃ b models_dir results_dir suffix,
      Called (c_save_models b models_dir results_dir suffix) (Returned VNone) ∈ log nsl).
Proof.
  cbv zeta.
  assert (Hsave : Called (c_nsl_save tt "/repo/src/data/models/baseline/nsl_preprocessor.pkl")
                    (Returned VNone)
                    ∈ log (train_nsl_kdd_baseline (collaborators happy) root 0%nat))
    by ran_and_logged.
  split; [exact Hsave|].
  exact (proj2 (proj1 (X7_persistence_only_after_test_evaluation
                         (collaborators happy) root 0%nat)) _ _ _ Hsave).
Defined.

(** [sys.exit(1)] in the loader leaves the procedure. *)
Lemma X9_witness :
  let nsl := train_nsl_kdd_baseline (collaborators exiting) root 0%nat in
  res nsl = Raised system_exit ∧
  ∃ c, Called c (Raised system_exit) ∈ log nsl ∧ guarded c system_exit = false.
Proof.
  cbv zeta.
  assert (Hres : res (train_nsl_kdd_baseline (collaborators exiting) root 0%nat)
                 = Raised system_exit) by reflexivity.
  split; [exact Hres|].
  exact (proj1 (proj1 (X9_escape_characterised (collaborators exiting) root 0%nat) _) Hres).
Defined.

Lemma X10_witness :
  let nsl := train_nsl_kdd_baseline (collaborators no_models) root 0%nat in
  let cic := train_cic_baseline (collaborators no_models) root (final nsl) in
  res nsl = Returned false ∧ res cic = Returned false ∧
  ∃ line,
    log (main (collaborators no_models) root 0%nat) =
      [Printed MPipeline; Printed MRule60] ++ log nsl ++ log cic ++
      [Printed MBlankRule60; Printed line] ∧
    (line = MBoth ↔ false = true ∧ false = true) ∧
    (line = MOnly NSL ↔ false = true ∧ false = false) ∧
    (line = MOnly CIC ↔ false = false ∧ false = true) ∧
    (line = MAllFailed ↔ false = false ∧ false = false).
Proof.
  cbv zeta.
  assert (Hnsl : res (train_nsl_kdd_baseline (collaborators no_models) root 0%nat)
                 = Returned false) by reflexivity.
  assert (Hcic : res (train_cic_baseline (collaborators no_models) root
                        (final (train_nsl_kdd_baseline (collaborators no_models) root 0%nat)))
                 = Returned false) by reflexivity.
  split; [exact Hnsl|]. split; [exact Hcic|].
  exact (X10_status_line_matches_results (collaborators no_models) root 0%nat _ _ Hnsl Hcic).
Defined.

Lemma X11_witness :
  let nsl := train_nsl_kdd_baseline (collaborators exiting) root 0%nat in
  let both := main (collaborators exiting) root 0%nat in
  res nsl = Raised system_exit ∧
  res both = Raised system_exit ∧ final both = final nsl ∧
  log both = [Printed MPipeline; Printed MRule60] ++ log nsl ∧
  res (script_entry (collaborators exiting) root 0%nat) = Raised system_exit.
Proof.
  cbv zeta.
  assert (Hres : res (train_nsl_kdd_baseline (collaborators exiting) root 0%nat)
                 = Raised system_exit) by reflexivity.
  split; [exact Hres|].
  exact (proj1 (X11_main_is_left_by_an_escaping_exception (collaborators exiting) root 0%nat)
           _ Hres).
Defined.

(** A script placed directly under the file-system root. *)
Lemma X12_witness :
  (length (["02_baseline_training.py"] : path) < 2)%nat ∧
  PROJECT_ROOT ["02_baseline_training.py"] = None ∧
  ∃ e, run_script (collaborators happy) ["02_baseline_training.py"] 0%nat
         = Result (Raised e) 0%nat [] ∧ is_Exception e = true.
Proof.
  assert (Hshort : (length (["02_baseline_training.py"] : path) < 2)%nat) by (cbn; lia).
  destruct (X12_PROJECT_ROOT_needs_two_components (collaborators happy)
              ["02_baseline_training.py"] 0%nat) as (Hnone & _ & Hrun).
  split; [exact Hshort|]. split; [exact (proj2 Hnone Hshort) | exact (Hrun Hshort)].
Defined.

(** An entry under a key that is not reported changes nothing. *)
Lemma X13_witness :
  let m' : gmap string (option Q) := <["loss" := Some 0.1%Q]> only_accuracy in
  (∀ metric, metric ∈ reported_metrics → only_accuracy !! metric = m' !! metric) ∧
  report_metrics (H:=domain) only_accuracy 0%nat = report_metrics (H:=domain) m' 0%nat.
Proof.
  cbv zeta.
  assert (Hagree : ∀ metric, metric ∈ reported_metrics →
                             only_accuracy !! metric
                             = (<["loss" := Some 0.1%Q]> only_accuracy : gmap string (option Q))
                                 !! metric).
  { intros metric Hin. unfold reported_metrics in Hin.
    rewrite !elem_of_cons, elem_of_nil in Hin.
    destruct Hin as [->|[->|[->|[->|[]]]]]; vm_compute; reflexivity. }
  split; [exact Hagree|].
  exact (X13_report_reads_the_four_metrics_only (H:=domain) _ _ 0%nat Hagree).
Defined.

Lemma X14_witness :
  let run := report_metrics (H:=domain) (<["recall" := Some 0.5%Q]> only_accuracy) 0%nat in
  "recall" ∈ reported_metrics ∧
  res run = Returned tt ∧ final run = 0%nat ∧
  Printed (MMetric "recall" (Some 0.5%Q)) ∈ log run ∧
  (∀ k v, Printed (MMetric k v) ∈ log run → k ∈ reported_metrics).
Proof.
  cbv zeta.
  assert (Hin : "recall" ∈ reported_metrics) by ran_and_logged.
  split; [exact Hin|].
  exact (X14_report_prints_stored_values (H:=domain) only_accuracy "recall" (Some 0.5%Q)
           0%nat Hin).
Defined.
